(** * Right-of-way manager: the geometry utilities

    A shallow embedding of [geometryUtils] (the second module of
    [src/runtime/widget.tsx]): [buildRowPolygon], [computeVertexAnalytics],
    [decimalToDMS], [calculateArea] and [calculatePerimeter].

    Numbers.  A JavaScript [number] is read as a real number: [Math.atan2],
    [Math.PI], [%] and [Math.floor] are the functions on [R] they round.
    Rounding, signed zeros, infinities and NaN are outside this model.
    The running distance of the vertex loop, where rounding shows, is given
    on binary64 numbers as well ([Binary64]).

    Strings.  A string is the UTF-8 encoding of the JavaScript string, one
    [ascii] per byte, as the source file spells it.

    The host's geometry engine ([esri/geometry/geometryEngine]) is not part
    of the repository; its three operations are the fields of the class
    [GeometryEngine].  The theorems hold for an arbitrary instance; the
    concrete engines defined below are there to evaluate the code with. *)

From Stdlib Require Import Reals Lra Lia ZArith List String Ascii Bool Arith.
From Stdlib Require Import DecimalString Sorted.
From Stdlib Require PrimFloat.
Import ListNotations.

Local Open Scope R_scope.

(** ** JavaScript numbers *)

Module Js.

Definition Math_PI : R := PI.

(** [Math.floor]; the result is an integer, injected back with [IZR]
    where the source goes on computing with it. *)
Definition Math_floor (x : R) : Z := Zfloor x.

Definition Math_abs (x : R) : R := Rabs x.

(** [Math.atan2(y, x)]: the angle of the point [(x, y)], in [(-PI, PI]]. *)
Definition Math_atan2 (y x : R) : R :=
  if Rlt_dec 0 x then atan (y / x)
  else if Rlt_dec x 0 then
    if Rle_dec 0 y then atan (y / x) + PI else atan (y / x) - PI
  else if Rlt_dec 0 y then PI / 2
  else if Rlt_dec y 0 then - (PI / 2)
  else 0.

(** Rounding towards zero, which is how [%] takes its quotient. *)
Definition trunc (x : R) : Z :=
  if Rle_dec 0 x then Zfloor x else Zceil x.

(** [a % b]: the remainder has the sign of the dividend. *)
Definition rem (a b : R) : R := a - b * IZR (trunc (a / b)).

(** [`${n}`] for an integer-valued number [n] (of magnitude below 10^21,
    where JavaScript still prints plain decimal digits). *)
Definition toString (n : Z) : string := NilZero.string_of_int (Z.to_int n).

End Js.

(** The double quote character, as a one-character string. *)
Definition dquote : string := String "034"%char EmptyString.

(** ** decimalToDMS *)

(** The template literal of the source holds, between the degrees and the
    blank that follows them, the bytes C3 82 C2 B0: the two characters
    U+00C2 and U+00B0.  The table of the widget, in the same file, prints
    its bearing column with the single character U+00B0. *)
Definition decimalToDMS (decimal : R) : string :=
  let degrees := Js.Math_floor decimal in
  let minutesDecimal := (decimal - IZR degrees) * 60 in
  let minutes := Js.Math_floor minutesDecimal in
  let seconds := Js.Math_floor ((minutesDecimal - IZR minutes) * 60) in
  (Js.toString degrees ++ "Â° " ++ Js.toString minutes ++ "' "
     ++ Js.toString seconds ++ dquote)%string.

(** The three integers [decimalToDMS] prints. *)
Definition dmsDegrees (decimal : R) : Z := Js.Math_floor decimal.
Definition dmsMinutes (decimal : R) : Z :=
  Js.Math_floor ((decimal - IZR (dmsDegrees decimal)) * 60).
Definition dmsSeconds (decimal : R) : Z :=
  Js.Math_floor
    (((decimal - IZR (dmsDegrees decimal)) * 60 - IZR (dmsMinutes decimal)) * 60).

(** The string the specification expects for 45.5: a single degree sign
    (U+00B0) after the degrees. *)
Definition dms_45_5_expected : string := ("45° 30' 0" ++ dquote)%string.

(** ** Geometries *)

(** A vertex of a path is the array [[x, y]]; [fst] is its entry 0 and
    [snd] its entry 1. *)
Definition Point : Type := R * R.
Definition Path : Type := list Point.

(** The spatial reference travels with a geometry and is never inspected. *)
Definition SpatialReference : Type := Z.

Module Polyline.
Record t : Type := mk { paths : list Path; spatialReference : SpatialReference }.
End Polyline.

Module Polygon.
(** An entry of a ring is [None] when the source puts [undefined] there:
    [leftPath[0]] of an empty [leftPath]. *)
Record t : Type :=
  mk { rings : list (list (option Point)); spatialReference : SpatialReference }.
End Polygon.

(** What [geodesicLength] accepts. *)
Inductive Geometry : Type :=
| OfPolyline (g : Polyline.t)
| OfPolygon (g : Polygon.t).

(** The three operations the module calls on the host's geometry engine.
    [offset] answers [None] for the [null] the source tests for. *)
Class GeometryEngine : Type := {
  offset : Polyline.t -> R -> string -> string -> option Polyline.t;
  geodesicLength : Geometry -> string -> R;
  geodesicArea : Polygon.t -> string -> R
}.

(** ** Exceptions *)

Inductive JsError : Type :=
| Error (message : string)
| TypeError.

Inductive Result (A : Type) : Type :=
| Ok (a : A)
| Throw (e : JsError).
Arguments Ok {A} a.
Arguments Throw {A} e.

Definition bind {A B : Type} (r : Result A) (k : A -> Result B) : Result B :=
  match r with
  | Ok a => k a
  | Throw e => Throw e
  end.

Notation "x <- r ;; k" := (bind r (fun x => k))
  (at level 61, r at next level, right associativity).

(** [a[i]] followed by a use of the element as an array: a [TypeError]
    when the index is out of range. *)
Definition item {A : Type} (a : list A) (i : nat) : Result A :=
  match nth_error a i with
  | Some v => Ok v
  | None => Throw TypeError
  end.

(** ** buildRowPolygon *)

Definition OffsetFailure : JsError := Error "Failed to create offset lines".

Definition buildRowPolygon `{GeometryEngine}
    (centerline : Polyline.t) (leftWidth rightWidth : R) : Result Polygon.t :=
  let leftOffset := offset centerline leftWidth "meters" "miter" in
  let rightOffset := offset centerline (- rightWidth) "meters" "miter" in
  match leftOffset, rightOffset with
  | Some leftOffset, Some rightOffset =>
      leftPath <- item (Polyline.paths leftOffset) 0 ;;
      rightPath <- item (Polyline.paths rightOffset) 0 ;;
      let ring :=
        map Some leftPath ++ map Some (rev rightPath) ++ [nth_error leftPath 0] in
      Ok (Polygon.mk [ring] (Polyline.spatialReference centerline))
  | _, _ => Throw OffsetFailure
  end.

(** ** computeVertexAnalytics *)

Module VertexInfo.
Record t : Type := mk {
  index : nat;
  x : R;
  y : R;
  bearing : R;
  bearingDMS : string;
  bendAngle : R;
  bendDirection : string;
  segmentLength : R;
  distanceFromStart : R
}.
End VertexInfo.

(** The angle of [Math.atan2] in degrees. *)
Definition degreesOf (dx dy : R) : R := Js.Math_atan2 dx dy * 180 / Js.Math_PI.

(** [(Math.atan2(dx, dy) * 180 / Math.PI + 360) % 360], which the source
    writes out three times. *)
Definition bearingOf (dx dy : R) : R :=
  Js.rem (Js.Math_atan2 dx dy * 180 / Js.Math_PI + 360) 360.

(** The deflection once the two [if]s have folded it. *)
Definition foldDeflection (deflection : R) : R :=
  let deflection := if Rlt_dec 180 deflection then deflection - 360 else deflection in
  if Rlt_dec deflection (-180) then deflection + 360 else deflection.

(** The branch [if (prev && next)]: bend angle and bend direction. *)
Definition bendOf (prev current next : Point) : R * string :=
  let dx1 := fst current - fst prev in
  let dy1 := snd current - snd prev in
  let bearing1 := bearingOf dx1 dy1 in
  let dx2 := fst next - fst current in
  let dy2 := snd next - snd current in
  let bearing2 := bearingOf dx2 dy2 in
  let deflection := foldDeflection (bearing2 - bearing1) in
  let bendAngle := Js.Math_abs deflection in
  (bendAngle,
   if Rlt_dec 1 (Js.Math_abs deflection)
   then (if Rlt_dec 0 deflection then "Left" else "Right")
   else "Straight")%string.

Section Analytics.
Context `{GeometryEngine}.
Variable polyline : Polyline.t.
Variable path : Path.

(** One turn of the [for] loop at index [i], entered with
    [cumulativeDistance]: the record pushed and the distance carried on. *)
Definition vertexAt (i : nat) (current : Point) (cumulativeDistance : R)
  : VertexInfo.t * R :=
  let prev := if (0 <? i)%nat then nth_error path (i - 1) else None in
  let next :=
    if (i <? List.length path - 1)%nat then nth_error path (i + 1) else None in
  let '(bearing, segmentLength, cumulativeDistance) :=
    match next with
    | Some next =>
        let dx := fst next - fst current in
        let dy := snd next - snd current in
        let bearing := bearingOf dx dy in
        let segment :=
          Polyline.mk [[current; next]] (Polyline.spatialReference polyline) in
        let segmentLength := geodesicLength (OfPolyline segment) "meters" in
        (bearing, segmentLength, cumulativeDistance + segmentLength)
    | None => (0, 0, cumulativeDistance)
    end in
  let '(bendAngle, bendDirection) :=
    match prev, next with
    | Some prev, Some next => bendOf prev current next
    | _, _ =>
        if (i =? 0)%nat then (0, "Start"%string)
        else if (i =? List.length path - 1)%nat then (0, "End"%string)
        else (0, "N/A"%string)
    end in
  (VertexInfo.mk i (fst current) (snd current) bearing (decimalToDMS bearing)
     bendAngle bendDirection segmentLength
     (if (i =? 0)%nat then 0 else cumulativeDistance - segmentLength),
   cumulativeDistance).

(** The loop [for (let i = 0; i < path.length; i++)], with [n] turns left
    to run from index [i]. *)
Fixpoint loop (n i : nat) (cumulativeDistance : R) (vertices : list VertexInfo.t)
  : Result (list VertexInfo.t) :=
  match n with
  | O => Ok vertices
  | S n' =>
      current <- item path i ;;
      let '(v, cumulativeDistance) := vertexAt i current cumulativeDistance in
      loop n' (S i) cumulativeDistance (vertices ++ [v])
  end.

(** The vertex after index [i], as the loop reads it. *)
Definition nextOf (i : nat) : option Point :=
  if (i <? List.length path - 1)%nat then nth_error path (i + 1) else None.

(** The vertex before index [i], as the loop reads it. *)
Definition prevOf (i : nat) : option Point :=
  if (0 <? i)%nat then nth_error path (i - 1) else None.

(** Length of the segment that leaves vertex [i]; 0 at the last vertex. *)
Definition outgoing (i : nat) : R :=
  match nth_error path i, nextOf i with
  | Some current, Some next =>
      geodesicLength
        (OfPolyline
           (Polyline.mk [[current; next]] (Polyline.spatialReference polyline)))
        "meters"
  | _, _ => 0
  end.

(** Sum of the segment lengths that lead to vertex [i]. *)
Fixpoint reached (i : nat) : R :=
  match i with
  | O => 0
  | S k => reached k + outgoing k
  end.

(** The record of vertex [i]. *)
Definition recordAt (i : nat) : VertexInfo.t :=
  fst (vertexAt i (nth i path (0, 0)) (reached i)).

(** Bearing of the record of vertex [i], whose point is [current]. *)
Definition bearingAt (i : nat) (current : Point) : R :=
  match nextOf i with
  | Some next => bearingOf (fst next - fst current) (snd next - snd current)
  | None => 0
  end.

(** Bend angle and direction of the record of vertex [i]. *)
Definition bendAt (i : nat) (current : Point) : R * string :=
  match prevOf i, nextOf i with
  | Some prev, Some next => bendOf prev current next
  | _, _ =>
      if (i =? 0)%nat then (0, "Start"%string)
      else if (i =? List.length path - 1)%nat then (0, "End"%string)
      else (0, "N/A"%string)
  end.

End Analytics.

Definition computeVertexAnalytics `{GeometryEngine} (polyline : Polyline.t)
  : Result (list VertexInfo.t) :=
  let vertices := [] in
  match nth_error (Polyline.paths polyline) 0 with
  | None => Ok vertices
  | Some path =>
      if (List.length path <? 2)%nat then Ok vertices
      else loop polyline path (List.length path) 0 0 vertices
  end.

(** ** calculateArea, calculatePerimeter *)

Definition calculateArea `{GeometryEngine} (polygon : Polygon.t) : R :=
  geodesicArea polygon "square-meters".

Definition calculatePerimeter `{GeometryEngine} (polygon : Polygon.t) : R :=
  geodesicLength (OfPolygon polygon) "meters".

(** ** Reading the specification *)

(** Number of vertices of the centerline: the length of its first path, 0
    when it has none. *)
Definition vertexCount (polyline : Polyline.t) : nat :=
  match nth_error (Polyline.paths polyline) 0 with
  | Some path => List.length path
  | None => 0%nat
  end.

(** The representative of [d] modulo 360 in the half-open interval
    (-180, 180], which is how the specification words the deflection. *)
Definition normalize180 (d : R) : R := d - 360 * IZR (Zceil ((d - 180) / 360)).

(** The direction the specification reads off a signed deflection. *)
Definition directionOf (deflection : R) : string :=
  if Rle_dec (Rabs deflection) 1 then "Straight"
  else if Rlt_dec 1 deflection then "Left"
  else "Right".

(** The bend of a record as the specification words it: the deflection is
    the difference of the two bearings brought into (-180, 180]. *)
Definition specifiedBend (prev current next : Point) (v : VertexInfo.t) : Prop :=
  let incoming := bearingOf (fst current - fst prev) (snd current - snd prev) in
  let outgoing := bearingOf (fst next - fst current) (snd next - snd current) in
  let deflection := normalize180 (outgoing - incoming) in
  VertexInfo.bendDirection v = directionOf deflection
  /\ VertexInfo.bendAngle v = Rabs deflection
  /\ 0 <= VertexInfo.bendAngle v <= 180.

(** The area as the specification words it: absolute, not signed. *)
Definition absoluteArea `{GeometryEngine} (polygon : Polygon.t) : R :=
  Rabs (geodesicArea polygon "square-meters").

(** What the specification asks of the polygon built for a centerline of
    [n] vertices: one ring, of [2n+1] entries, that ends where it starts. *)
Definition closedRowRing (n : nat) (polygon : Polygon.t) : Prop :=
  exists ring : list (option Point),
    Polygon.rings polygon = [ring]
    /\ hd None ring = last ring None
    /\ List.length ring = (2 * n + 1)%nat.

(** ** Engines to evaluate with *)

(** A planar engine: Euclidean lengths, shoelace areas counted positive for
    clockwise rings, and an offset that shifts the line along the x axis,
    which is the parallel at that distance for a line running due north. *)

Definition translate (d : R) (p : Path) : Path :=
  map (fun q => (fst q + d, snd q)) p.

Fixpoint planarLength (p : Path) : R :=
  match p with
  | a :: tl =>
      match tl with
      | b :: _ =>
          sqrt ((fst b - fst a) * (fst b - fst a) + (snd b - snd a) * (snd b - snd a))
          + planarLength tl
      | [] => 0
      end
  | [] => 0
  end.

Fixpoint shoelace (p : Path) : R :=
  match p with
  | a :: tl =>
      match tl with
      | b :: _ => (fst b * snd a - fst a * snd b) + shoelace tl
      | [] => 0
      end
  | [] => 0
  end.

Fixpoint defined (ring : list (option Point)) : Path :=
  match ring with
  | Some q :: tl => q :: defined tl
  | None :: tl => defined tl
  | [] => []
  end.

Definition total (l : list R) : R := fold_right Rplus 0 l.

Definition planarOffset (simplify : Path -> Path)
    (g : Polyline.t) (d : R) (unit joinType : string) : option Polyline.t :=
  match Polyline.paths g with
  | p :: _ =>
      if (List.length (simplify p) <? 2)%nat then None
      else Some (Polyline.mk [translate d (simplify p)] (Polyline.spatialReference g))
  | [] => None
  end.

Definition planarGeodesicLength (g : Geometry) (unit : string) : R :=
  match g with
  | OfPolyline l => total (map planarLength (Polyline.paths l))
  | OfPolygon p => total (map (fun r => planarLength (defined r)) (Polygon.rings p))
  end.

Definition planarGeodesicArea (p : Polygon.t) (unit : string) : R :=
  total (map (fun r => shoelace (defined r) / 2) (Polygon.rings p)).

Definition planarEngine : GeometryEngine :=
  {| offset := planarOffset (fun p => p);
     geodesicLength := planarGeodesicLength;
     geodesicArea := planarGeodesicArea |}.

(** The same engine, but one that drops a vertex repeating the one before
    it (a segment of length zero has no direction to offset along). *)

Definition samePoint (a b : Point) : bool :=
  if Req_dec_T (fst a) (fst b)
  then (if Req_dec_T (snd a) (snd b) then true else false)
  else false.

Fixpoint dropRepeats (p : Path) : Path :=
  match p with
  | a :: tl =>
      match tl with
      | b :: _ => if samePoint a b then dropRepeats tl else a :: dropRepeats tl
      | [] => [a]
      end
  | [] => []
  end.

Definition simplifyingEngine : GeometryEngine :=
  {| offset := planarOffset dropRepeats;
     geodesicLength := planarGeodesicLength;
     geodesicArea := planarGeodesicArea |}.

(** An engine whose offset answers an empty polyline: a geometry, not
    [null], with no path in it. *)
Definition emptyOffsetEngine : GeometryEngine :=
  {| offset := fun g _ _ _ => Some (Polyline.mk [] (Polyline.spatialReference g));
     geodesicLength := planarGeodesicLength;
     geodesicArea := planarGeodesicArea |}.

(** The planar engine, but one whose parallel on the positive side has
    collapsed: a polyline whose first path holds no point. *)
Definition collapsedSideEngine : GeometryEngine :=
  {| offset := fun g d unit joinType =>
       if Rlt_dec 0 d
       then Some (Polyline.mk [[]] (Polyline.spatialReference g))
       else planarOffset (fun p => p) g d unit joinType;
     geodesicLength := planarGeodesicLength;
     geodesicArea := planarGeodesicArea |}.

(** ** The scenarios of the specification *)

Definition singlePoint : Polyline.t := Polyline.mk [[(0, 0)]] 3857%Z.

Definition straightLine : Polyline.t := Polyline.mk [[(0, 0); (0, 100)]] 3857%Z.

Definition rightAngle : Polyline.t :=
  Polyline.mk [[(0, 0); (0, 100); (100, 100)]] 3857%Z.

(** South, then back north over the same segment. *)
Definition foldedBack : Polyline.t :=
  Polyline.mk [[(0, 100); (0, 0); (0, 100)]] 3857%Z.

(** A centerline whose first vertex was clicked twice. *)
Definition repeatedStart : Polyline.t :=
  Polyline.mk [[(0, 0); (0, 0); (0, 100)]] 3857%Z.

Definition straightRow : Polygon.t :=
  Polygon.mk
    [[Some (10, 0); Some (10, 100); Some (-10, 100); Some (-10, 0); Some (10, 0)]]
    3857%Z.

(** ** The running distance on binary64 numbers

    [cumulativeDistance], [segmentLength] and [distanceFromStart] are
    doubles, and [+=] and [-] round.  This is computeVertexAnalytics once
    more, on doubles, for the fields that do not go through [Math.atan2]:
    the index, the position, the segment length and the distance from
    start (lines 659 to 670, 674, 676, 682 to 688, 720 to 723, 728 and
    729).  The engine is the length it answers, in meters, for the
    two-point line from a vertex to the next one. *)
Module Binary64.
Import PrimFloat.

Definition Point : Type := float * float.
Definition Path : Type := list Point.

Module VertexInfo.
Record t : Type := mk {
  index : nat;
  x : float;
  y : float;
  segmentLength : float;
  distanceFromStart : float
}.
End VertexInfo.

Section Analytics.
Variable geodesicLength : Point -> Point -> float.
Variable path : Path.

(** One turn of the [for] loop at index [i], entered with
    [cumulativeDistance]: the record pushed and the distance carried on. *)
Definition vertexAt (i : nat) (current : Point) (cumulativeDistance : float)
  : VertexInfo.t * float :=
  let next :=
    if (i <? List.length path - 1)%nat then nth_error path (i + 1) else None in
  let '(segmentLength, cumulativeDistance) :=
    match next with
    | Some next =>
        let segmentLength := geodesicLength current next in
        (segmentLength, add cumulativeDistance segmentLength)
    | None => (zero, cumulativeDistance)
    end in
  (VertexInfo.mk i (fst current) (snd current) segmentLength
     (if (i =? 0)%nat then zero else sub cumulativeDistance segmentLength),
   cumulativeDistance).

Fixpoint loop (n i : nat) (cumulativeDistance : float) (vertices : list VertexInfo.t)
  : Result (list VertexInfo.t) :=
  match n with
  | O => Ok vertices
  | S n' =>
      current <- item path i ;;
      let '(v, cumulativeDistance) := vertexAt i current cumulativeDistance in
      loop n' (S i) cumulativeDistance (vertices ++ [v])
  end.

End Analytics.

Definition computeVertexAnalytics (geodesicLength : Point -> Point -> float)
    (paths : list Path) : Result (list VertexInfo.t) :=
  let vertices := [] in
  match nth_error paths 0 with
  | None => Ok vertices
  | Some path =>
      if (List.length path <? 2)%nat then Ok vertices
      else loop geodesicLength path (List.length path) 0 zero vertices
  end.

(** The planar length of a segment, to have lengths to evaluate with. *)
Definition planarLength (a b : Point) : float :=
  let dx := sub (fst b) (fst a) in
  let dy := sub (snd b) (snd a) in
  sqrt (add (mul dx dx) (mul dy dy)).

(** The doubles 0.1, 0.8, 0.7000000000000001 and 0.09999999999999998. *)
Definition d0_1 : float := 0x1.999999999999ap-4.
Definition d0_8 : float := 0x1.999999999999ap-1.
Definition d0_7000000000000001 : float := 0x1.6666666666667p-1.
Definition d0_09999999999999998 : float := 0x1.9999999999998p-4.

(** A centerline due north whose second vertex was clicked twice:
    (0, 0), (0, 0.1), (0, 0.1), (0, 0.8). *)
Definition south : Point := (zero, zero).
Definition middle : Point := (zero, d0_1).
Definition north : Point := (zero, d0_8).

Definition repeatedSecond : Path := [south; middle; middle; north].

End Binary64.

(** ** exportUtils: the CSV of the vertex analytics *)

(** [k] times the digit 0. *)
Fixpoint zeros (k : nat) : string :=
  match k with
  | O => EmptyString
  | S k' => String "0" (zeros k')
  end.

(** [x.toFixed(f)], for a magnitude below 10^21 (from there on JavaScript
    switches to the exponent notation): the sign, then the integer [n]
    nearest to [x * 10^f] (the larger one of two) written with at least
    [f + 1] digits and a point before the last [f]. *)
Definition toFixed (x : R) (f : nat) : string :=
  let s := if Rlt_dec x 0 then "-"%string else EmptyString in
  let x := if Rlt_dec x 0 then - x else x in
  let n := Zfloor (x * 10 ^ f + / 2) in
  let m := Js.toString n in
  let m :=
    if (f =? 0)%nat then m
    else
      let k := String.length m in
      let m := if (k <=? f)%nat then (zeros (f + 1 - k) ++ m)%string else m in
      let k := String.length m in
      (substring 0 (k - f) m ++ "." ++ substring (k - f) f m)%string in
  (s ++ m)%string.

(** The line feed, as a one-character string. *)
Definition newline : string := String "010"%char EmptyString.

(** [a.join(sep)] for an array of strings. *)
Definition join (sep : string) (a : list string) : string := String.concat sep a.

(** What [downloadText] hands to the browser: the text of the blob, the
    name of the file and the type of the blob. *)
Record Download : Type := {
  content : string;
  filename : string;
  mimeType : string
}.

Definition downloadText (text filename mimeType : string) : Download :=
  {| content := text; filename := filename; mimeType := mimeType |}.

Definition csvHeaders : list string :=
  ["Index"; "X"; "Y"; "Bearing"; "Bearing DMS"; "Bend Angle"; "Bend Direction";
   "Segment Length (m)"; "Distance From Start (m)"]%string.

(** One element of [rows]: the nine entries of a record, the index as
    [join] prints a number. *)
Definition csvRow (v : VertexInfo.t) : list string :=
  [Js.toString (Z.of_nat (VertexInfo.index v));
   toFixed (VertexInfo.x v) 6;
   toFixed (VertexInfo.y v) 6;
   toFixed (VertexInfo.bearing v) 2;
   VertexInfo.bearingDMS v;
   toFixed (VertexInfo.bendAngle v) 2;
   VertexInfo.bendDirection v;
   toFixed (VertexInfo.segmentLength v) 2;
   toFixed (VertexInfo.distanceFromStart v) 2].

Definition exportVerticesCSV (vertices : list VertexInfo.t) (filename : string)
  : Download :=
  let headers := csvHeaders in
  let rows := map csvRow vertices in
  let csv :=
    join newline (join "," headers :: map (fun row => join "," row) rows) in
  downloadText csv filename "text/csv".

(** Reading a text back: the pieces between the occurrences of [sep]. *)
Fixpoint splitOn (sep : ascii) (s : string) : list string :=
  match s with
  | EmptyString => [EmptyString]
  | String c rest =>
      if Ascii.eqb c sep then EmptyString :: splitOn sep rest
      else
        match splitOn sep rest with
        | field :: fields => String c field :: fields
        | [] => [String c EmptyString]
        end
  end.

(** Does the character occur in the string? *)
Fixpoint hasChar (c : ascii) (s : string) : bool :=
  match s with
  | EmptyString => false
  | String a rest => Ascii.eqb a c || hasChar c rest
  end.

(** A string that can stand as a CSV field as it is. *)
Definition plainField (s : string) : Prop :=
  hasChar "," s = false /\ hasChar "010" s = false.

(** Do all characters of the string pass the test? *)
Fixpoint allChars (P : ascii -> bool) (s : string) : bool :=
  match s with
  | EmptyString => true
  | String a rest => P a && allChars P rest
  end.

(** The characters of a printed number: digits, minus sign and point. *)
Definition numeric (c : ascii) : bool :=
  match c with
  | "0" | "1" | "2" | "3" | "4" | "5" | "6" | "7" | "8" | "9" | "-" | "." => true
  | _ => false
  end%char.

(** ** The widget: its tables and layers

    The component keeps its tables in the React state and its graphics in
    three layers of the map.  A handler is modelled as a function on the
    widget: each [setState] is applied where it is written, which gives the
    state React commits for these handlers, since none of them reads a
    field of [this.state] after setting it, and the callback of [addLine]
    runs once its update is in.  The handle on the map view
    ([jimuMapView]) is the host's and is left out of the state; a date
    string ([new Date().toLocaleString()]) and the message of a
    [TypeError] come from the environment and are parameters. *)

Module LineRecord.
Record t : Type := mk {
  id : nat;
  project : string;
  geometry : Polyline.t;
  leftWidth : R;
  rightWidth : R;
  totalWidth : R;
  createdDate : string
}.
End LineRecord.

Module PolygonRecord.
Record t : Type := mk {
  id : nat;
  lineId : nat;
  project : string;
  geometry : Polygon.t;
  area : R;
  perimeter : R;
  createdDate : string
}.
End PolygonRecord.

Inductive Symbol : Type :=
| SimpleLineSymbol (color : list R) (width : R)
| SimpleFillSymbol (color : list R) (outlineColor : list R) (outlineWidth : R).

Module Graphic.
Record attrs : Type := mkAttrs { id : nat; lineId : option nat; type : string }.
Record t : Type := mk {
  geometry : Geometry;
  symbol : Symbol;
  attributes : option attrs
}.
End Graphic.

Module State.
Record t : Type := mk {
  mapReady : bool;
  project : string;
  leftWidth : R;
  rightWidth : R;
  mode : string;
  drawingMethod : string;
  selectedLayerId : string;
  lines : list LineRecord.t;
  polygons : list PolygonRecord.t;
  isDrawing : bool;
  nextLineId : nat;
  nextPolygonId : nat;
  verticesModalOpen : bool;
  currentVertices : list VertexInfo.t;
  currentLineId : option nat
}.

(** [setState({ field: value })], field by field. *)
Definition set_mapReady (v : bool) (s : t) : t :=
  mk v (project s) (leftWidth s) (rightWidth s) (mode s) (drawingMethod s)
    (selectedLayerId s) (lines s) (polygons s) (isDrawing s) (nextLineId s)
    (nextPolygonId s) (verticesModalOpen s) (currentVertices s) (currentLineId s).
Definition set_project (v : string) (s : t) : t :=
  mk (mapReady s) v (leftWidth s) (rightWidth s) (mode s) (drawingMethod s)
    (selectedLayerId s) (lines s) (polygons s) (isDrawing s) (nextLineId s)
    (nextPolygonId s) (verticesModalOpen s) (currentVertices s) (currentLineId s).
Definition set_leftWidth (v : R) (s : t) : t :=
  mk (mapReady s) (project s) v (rightWidth s) (mode s) (drawingMethod s)
    (selectedLayerId s) (lines s) (polygons s) (isDrawing s) (nextLineId s)
    (nextPolygonId s) (verticesModalOpen s) (currentVertices s) (currentLineId s).
Definition set_rightWidth (v : R) (s : t) : t :=
  mk (mapReady s) (project s) (leftWidth s) v (mode s) (drawingMethod s)
    (selectedLayerId s) (lines s) (polygons s) (isDrawing s) (nextLineId s)
    (nextPolygonId s) (verticesModalOpen s) (currentVertices s) (currentLineId s).
Definition set_mode (v : string) (s : t) : t :=
  mk (mapReady s) (project s) (leftWidth s) (rightWidth s) v (drawingMethod s)
    (selectedLayerId s) (lines s) (polygons s) (isDrawing s) (nextLineId s)
    (nextPolygonId s) (verticesModalOpen s) (currentVertices s) (currentLineId s).
Definition set_drawingMethod (v : string) (s : t) : t :=
  mk (mapReady s) (project s) (leftWidth s) (rightWidth s) (mode s) v
    (selectedLayerId s) (lines s) (polygons s) (isDrawing s) (nextLineId s)
    (nextPolygonId s) (verticesModalOpen s) (currentVertices s) (currentLineId s).
Definition set_lines (v : list LineRecord.t) (s : t) : t :=
  mk (mapReady s) (project s) (leftWidth s) (rightWidth s) (mode s) (drawingMethod s)
    (selectedLayerId s) v (polygons s) (isDrawing s) (nextLineId s)
    (nextPolygonId s) (verticesModalOpen s) (currentVertices s) (currentLineId s).
Definition set_polygons (v : list PolygonRecord.t) (s : t) : t :=
  mk (mapReady s) (project s) (leftWidth s) (rightWidth s) (mode s) (drawingMethod s)
    (selectedLayerId s) (lines s) v (isDrawing s) (nextLineId s)
    (nextPolygonId s) (verticesModalOpen s) (currentVertices s) (currentLineId s).
Definition set_isDrawing (v : bool) (s : t) : t :=
  mk (mapReady s) (project s) (leftWidth s) (rightWidth s) (mode s) (drawingMethod s)
    (selectedLayerId s) (lines s) (polygons s) v (nextLineId s)
    (nextPolygonId s) (verticesModalOpen s) (currentVertices s) (currentLineId s).
Definition set_nextLineId (v : nat) (s : t) : t :=
  mk (mapReady s) (project s) (leftWidth s) (rightWidth s) (mode s) (drawingMethod s)
    (selectedLayerId s) (lines s) (polygons s) (isDrawing s) v
    (nextPolygonId s) (verticesModalOpen s) (currentVertices s) (currentLineId s).
Definition set_nextPolygonId (v : nat) (s : t) : t :=
  mk (mapReady s) (project s) (leftWidth s) (rightWidth s) (mode s) (drawingMethod s)
    (selectedLayerId s) (lines s) (polygons s) (isDrawing s) (nextLineId s)
    v (verticesModalOpen s) (currentVertices s) (currentLineId s).
Definition set_verticesModalOpen (v : bool) (s : t) : t :=
  mk (mapReady s) (project s) (leftWidth s) (rightWidth s) (mode s) (drawingMethod s)
    (selectedLayerId s) (lines s) (polygons s) (isDrawing s) (nextLineId s)
    (nextPolygonId s) v (currentVertices s) (currentLineId s).
Definition set_currentVertices (v : list VertexInfo.t) (s : t) : t :=
  mk (mapReady s) (project s) (leftWidth s) (rightWidth s) (mode s) (drawingMethod s)
    (selectedLayerId s) (lines s) (polygons s) (isDrawing s) (nextLineId s)
    (nextPolygonId s) (verticesModalOpen s) v (currentLineId s).
Definition set_currentLineId (v : option nat) (s : t) : t :=
  mk (mapReady s) (project s) (leftWidth s) (rightWidth s) (mode s) (drawingMethod s)
    (selectedLayerId s) (lines s) (polygons s) (isDrawing s) (nextLineId s)
    (nextPolygonId s) (verticesModalOpen s) (currentVertices s) v.
End State.

Module Widget.
(** The state, the graphics of the three layers in the order they were
    added, and the texts shown with [alert], oldest first. *)
Record t : Type := mk {
  state : State.t;
  centerlineLayer : list Graphic.t;
  rowLayer : list Graphic.t;
  previewLayer : list Graphic.t;
  alerts : list string
}.

Definition with_state (v : State.t) (w : t) : t :=
  mk v (centerlineLayer w) (rowLayer w) (previewLayer w) (alerts w).
Definition with_centerlineLayer (v : list Graphic.t) (w : t) : t :=
  mk (state w) v (rowLayer w) (previewLayer w) (alerts w).
Definition with_rowLayer (v : list Graphic.t) (w : t) : t :=
  mk (state w) (centerlineLayer w) v (previewLayer w) (alerts w).
Definition with_previewLayer (v : list Graphic.t) (w : t) : t :=
  mk (state w) (centerlineLayer w) (rowLayer w) v (alerts w).
Definition alert (text : string) (w : t) : t :=
  mk (state w) (centerlineLayer w) (rowLayer w) (previewLayer w) (alerts w ++ [text]).
End Widget.

(** The widget after the constructor. *)
Definition initialWidget : Widget.t :=
  Widget.mk
    (State.mk false EmptyString 50 50 "draw" "sketch" EmptyString [] [] false
       1 1 false [] None)
    [] [] [] [].

(** [g.attributes?.id === n] *)
Definition hasId (n : nat) (g : Graphic.t) : bool :=
  match Graphic.attributes g with
  | Some a => (Graphic.id a =? n)%nat
  | None => false
  end.

(** [layer.removeMany(layer.graphics.filter(g => g.attributes?.id === n))] *)
Definition removeWithId (n : nat) (layer : list Graphic.t) : list Graphic.t :=
  filter (fun g => negb (hasId n g)) layer.

Definition centerlineSymbol : Symbol := SimpleLineSymbol [0; 112; 255] 3.
Definition rowFillSymbol : Symbol := SimpleFillSymbol [255; 0; 0; 2 / 10] [255; 0; 0] 2.
Definition previewFillSymbol : Symbol :=
  SimpleFillSymbol [255; 0; 0; 3 / 10] [255; 0; 0] 2.

Section Handlers.
Context `{GeometryEngine}.

(** The text of [error.message] for a [TypeError], which the JavaScript
    engine words. *)
Variable typeErrorText : string.

Definition messageOf (e : JsError) : string :=
  match e with
  | Error message => message
  | TypeError => typeErrorText
  end.

Definition findLine (lineId : nat) (w : Widget.t) : option LineRecord.t :=
  find (fun l => (LineRecord.id l =? lineId)%nat) (State.lines (Widget.state w)).

Definition findPolygon (polygonId : nat) (w : Widget.t) : option PolygonRecord.t :=
  find (fun p => (PolygonRecord.id p =? polygonId)%nat)
    (State.polygons (Widget.state w)).

(** [buildROW(lineId)], run when the clock reads [now]. *)
Definition buildROW (lineId : nat) (now : string) (w : Widget.t) : Widget.t :=
  match findLine lineId w with
  | None => w
  | Some line =>
      match
        buildRowPolygon (LineRecord.geometry line) (LineRecord.leftWidth line)
          (LineRecord.rightWidth line)
      with
      | Ok polygon =>
          let area := calculateArea polygon in
          let perimeter := calculatePerimeter polygon in
          let s := Widget.state w in
          let newPolygon :=
            PolygonRecord.mk (State.nextPolygonId s) (LineRecord.id line)
              (LineRecord.project line) polygon area perimeter now in
          let graphic :=
            Graphic.mk (OfPolygon polygon) rowFillSymbol
              (Some (Graphic.mkAttrs (State.nextPolygonId s) (Some lineId) "row")) in
          let w := Widget.with_rowLayer (Widget.rowLayer w ++ [graphic]) w in
          Widget.with_state
            (State.set_nextPolygonId (State.nextPolygonId s + 1)
               (State.set_polygons (State.polygons s ++ [newPolygon]) s))
            w
      | Throw error =>
          Widget.alert ("Error creating ROW: " ++ messageOf error) w
      end
  end.

(** [addLine(geometry)]; the clock reads [now] when the line is recorded
    and [nowRow] when its polygon is. *)
Definition addLine (geometry : Polyline.t) (now nowRow : string) (w : Widget.t)
  : Widget.t :=
  let s := Widget.state w in
  let totalWidth := State.leftWidth s + State.rightWidth s in
  let newLine :=
    LineRecord.mk (State.nextLineId s) (State.project s) geometry
      (State.leftWidth s) (State.rightWidth s) totalWidth now in
  let graphic :=
    Graphic.mk (OfPolyline geometry) centerlineSymbol
      (Some (Graphic.mkAttrs (State.nextLineId s) None "centerline")) in
  let w := Widget.with_centerlineLayer (Widget.centerlineLayer w ++ [graphic]) w in
  let w :=
    Widget.with_state
      (State.set_nextLineId (State.nextLineId s + 1)
         (State.set_lines (State.lines s ++ [newLine]) s))
      w in
  buildROW (State.nextLineId s) nowRow w.

Definition deleteLine (lineId : nat) (w : Widget.t) : Widget.t :=
  let s := Widget.state w in
  let w :=
    Widget.with_state
      (State.set_lines
         (filter (fun l => negb (LineRecord.id l =? lineId)%nat) (State.lines s)) s)
      w in
  Widget.with_centerlineLayer (removeWithId lineId (Widget.centerlineLayer w)) w.

Definition deletePolygon (polygonId : nat) (w : Widget.t) : Widget.t :=
  let s := Widget.state w in
  let w :=
    Widget.with_state
      (State.set_polygons
         (filter (fun p => negb (PolygonRecord.id p =? polygonId)%nat)
            (State.polygons s)) s)
      w in
  Widget.with_rowLayer (removeWithId polygonId (Widget.rowLayer w)) w.

(** [showVertices(lineId)].  An exception of [computeVertexAnalytics]
    would leave the handler before its [setState]. *)
Definition showVertices (lineId : nat) (w : Widget.t) : Widget.t :=
  match findLine lineId w with
  | Some line =>
      match computeVertexAnalytics (LineRecord.geometry line) with
      | Ok vertices =>
          Widget.with_state
            (State.set_currentLineId (Some lineId)
               (State.set_currentVertices vertices
                  (State.set_verticesModalOpen true (Widget.state w))))
            w
      | Throw _ => w
      end
  | None => w
  end.

(** [exportVertices()]: the download it starts, if any. *)
Definition exportVertices (w : Widget.t) : option Download :=
  let s := Widget.state w in
  let line :=
    match State.currentLineId s with
    | Some currentLineId => findLine currentLineId w
    | None => None
    end in
  match State.currentLineId s, line with
  | Some currentLineId, Some line =>
      Some
        (exportVerticesCSV (State.currentVertices s)
           (LineRecord.project line ++ "_vertices_"
              ++ Js.toString (Z.of_nat currentLineId) ++ ".csv"))
  | _, _ => None
  end.

(** [handleDrawLine()], up to the start of the drawing tool, which is the
    host's. *)
Definition handleDrawLine (w : Widget.t) : Widget.t :=
  let s := Widget.state w in
  if String.eqb (State.project s) EmptyString then
    Widget.alert "Please enter a project name first" w
  else
    let w := Widget.with_state (State.set_isDrawing true s) w in
    if String.eqb (State.drawingMethod s) "realtime"
    then Widget.with_previewLayer [] w
    else w.

(** The listener on the sketch: [event.state] and the geometry drawn. *)
Definition onSketchCreate (eventState : string) (geometry : Polyline.t)
    (now nowRow : string) (w : Widget.t) : Widget.t :=
  if String.eqb eventState "complete" then
    let w := addLine geometry now nowRow w in
    Widget.with_state (State.set_isDrawing false (Widget.state w)) w
  else w.

(** [updateRealtimePreview(event)]: [event.vertices], [event.type] and the
    spatial reference of the view. *)
Definition updateRealtimePreview (vertices : Path) (type : string)
    (viewReference : SpatialReference) (now nowRow : string) (w : Widget.t)
  : Widget.t :=
  if (1 <? List.length vertices)%nat then
    let w := Widget.with_previewLayer [] w in
    let centerlineGeometry := Polyline.mk [vertices] viewReference in
    let centerlineGraphic :=
      Graphic.mk (OfPolyline centerlineGeometry) centerlineSymbol None in
    let s := Widget.state w in
    let w :=
      match
        buildRowPolygon centerlineGeometry (State.leftWidth s) (State.rightWidth s)
      with
      | Ok rowPolygon =>
          let rowGraphic :=
            Graphic.mk (OfPolygon rowPolygon) previewFillSymbol None in
          Widget.with_previewLayer
            (Widget.previewLayer w ++ [rowGraphic; centerlineGraphic]) w
      | Throw _ =>
          Widget.with_previewLayer (Widget.previewLayer w ++ [centerlineGraphic]) w
      end in
    if String.eqb type "draw-complete" then
      let w := Widget.with_previewLayer [] w in
      let w := addLine centerlineGeometry now nowRow w in
      Widget.with_state (State.set_isDrawing false (Widget.state w)) w
    else w
  else w.

(** What a user or the map can make the widget do, one handler at a time. *)
Inductive step : Widget.t -> Widget.t -> Prop :=
| step_project (text : string) (w : Widget.t) :
    step w (Widget.with_state (State.set_project text (Widget.state w)) w)
| step_mode (value : string) (w : Widget.t) :
    step w (Widget.with_state (State.set_mode value (Widget.state w)) w)
| step_drawingMethod (value : string) (w : Widget.t) :
    step w (Widget.with_state (State.set_drawingMethod value (Widget.state w)) w)
| step_leftWidth (value : R) (w : Widget.t) :
    step w (Widget.with_state (State.set_leftWidth value (Widget.state w)) w)
| step_rightWidth (value : R) (w : Widget.t) :
    step w (Widget.with_state (State.set_rightWidth value (Widget.state w)) w)
| step_closeVertices (w : Widget.t) :
    step w
      (Widget.with_state (State.set_verticesModalOpen false (Widget.state w)) w)
| step_mapReady (w : Widget.t) :
    step w (Widget.with_state (State.set_mapReady true (Widget.state w)) w)
| step_handleDrawLine (w : Widget.t) : step w (handleDrawLine w)
| step_sketch (eventState : string) (geometry : Polyline.t) (now nowRow : string)
    (w : Widget.t) :
    step w (onSketchCreate eventState geometry now nowRow w)
| step_preview (vertices : Path) (type : string) (viewReference : SpatialReference)
    (now nowRow : string) (w : Widget.t) :
    step w (updateRealtimePreview vertices type viewReference now nowRow w)
| step_deleteLine (lineId : nat) (w : Widget.t) : step w (deleteLine lineId w)
| step_deletePolygon (polygonId : nat) (w : Widget.t) :
    step w (deletePolygon polygonId w)
| step_showVertices (lineId : nat) (w : Widget.t) : step w (showVertices lineId w).

(** The widgets that can be reached from the constructor's. *)
Inductive reachable : Widget.t -> Prop :=
| reachable_initial : reachable initialWidget
| reachable_step (w w' : Widget.t) : reachable w -> step w w' -> reachable w'.

End Handlers.

Definition lineIds (w : Widget.t) : list nat :=
  map LineRecord.id (State.lines (Widget.state w)).

Definition polygonIds (w : Widget.t) : list nat :=
  map PolygonRecord.id (State.polygons (Widget.state w)).

(** The numbering the tables keep. *)
Definition numbered (w : Widget.t) : Prop :=
  (1 <= State.nextLineId (Widget.state w))%nat
  /\ (1 <= State.nextPolygonId (Widget.state w))%nat
  /\ StronglySorted lt (lineIds w)
  /\ Forall (fun i => (1 <= i < State.nextLineId (Widget.state w))%nat) (lineIds w)
  /\ StronglySorted lt (polygonIds w)
  /\ Forall (fun i => (1 <= i < State.nextPolygonId (Widget.state w))%nat)
       (polygonIds w)
  /\ Forall
       (fun p => (1 <= PolygonRecord.lineId p < State.nextLineId (Widget.state w))%nat)
       (State.polygons (Widget.state w)).

(** Settle the comparisons in the goal that arithmetic decides. *)
Ltac decide_R :=
  repeat match goal with
    | |- context [Rlt_dec ?a ?b] => destruct (Rlt_dec a b); try lra
    | |- context [Rle_dec ?a ?b] => destruct (Rle_dec a b); try lra
    end.

(** * Theorems *)

(** ** Degrees, minutes, seconds: the fields *)

Lemma decimalToDMS_fields (decimal : R) :
  decimalToDMS decimal =
  (Js.toString (dmsDegrees decimal) ++ "Â° "
     ++ Js.toString (dmsMinutes decimal) ++ "' "
     ++ Js.toString (dmsSeconds decimal) ++ dquote)%string.
Proof. reflexivity. Qed.

Lemma dms_fields_45_5 :
  dmsDegrees (455 / 10) = 45%Z /\ dmsMinutes (455 / 10) = 30%Z
  /\ dmsSeconds (455 / 10) = 0%Z.
Proof.
  assert (D : dmsDegrees (455 / 10) = 45%Z) by (apply Zfloor_eq; lra).
  assert (M : dmsMinutes (455 / 10) = 30%Z)
    by (unfold dmsMinutes; rewrite D; apply Zfloor_eq; lra).
  repeat split; trivial.
  unfold dmsSeconds. rewrite D, M. apply Zfloor_eq; lra.
Qed.

Lemma decimalToDMS_45_5_string :
  decimalToDMS (455 / 10) = ("45Â° 30' 0" ++ dquote)%string.
Proof.
  rewrite decimalToDMS_fields.
  destruct dms_fields_45_5 as (-> & -> & ->). reflexivity.
Qed.

(** ** Arithmetic of bearings *)

Lemma div_nonneg (a b : R) : 0 <= a -> 0 < b -> 0 <= a / b.
Proof.
  intros Ha Hb. unfold Rdiv.
  apply Rmult_le_pos; [exact Ha | left; apply Rinv_0_lt_compat; exact Hb].
Qed.

Lemma trunc_nonneg (x : R) : 0 <= x -> Js.trunc x = Zfloor x.
Proof. intros Hx. unfold Js.trunc. destruct (Rle_dec 0 x); [reflexivity | contradiction]. Qed.

Lemma rem_eq (a b : R) (k : Z) :
  0 < b -> 0 <= a -> IZR k * b <= a < (IZR k + 1) * b ->
  Js.rem a b = a - b * IZR k.
Proof.
  intros Hb Ha [Hlo Hhi]. unfold Js.rem.
  assert (Hq : 0 <= a / b) by (apply div_nonneg; lra).
  rewrite (trunc_nonneg _ Hq).
  replace (Zfloor (a / b)) with k; [reflexivity|].
  symmetry. apply Zfloor_eq. split.
  - apply Rmult_le_reg_r with b; [lra|].
    unfold Rdiv. rewrite Rmult_assoc, Rinv_l by lra. lra.
  - apply Rmult_lt_reg_r with b; [lra|].
    unfold Rdiv. rewrite Rmult_assoc, Rinv_l by lra. lra.
Qed.

Lemma rem_range (a b : R) : 0 < b -> 0 <= a -> 0 <= Js.rem a b < b.
Proof.
  intros Hb Ha. unfold Js.rem.
  assert (Hq : 0 <= a / b) by (apply div_nonneg; lra).
  rewrite (trunc_nonneg _ Hq).
  destruct (Zfloor_bound (a / b)) as [Hlo Hhi].
  assert (Ea : a = a / b * b) by (unfold Rdiv; rewrite Rmult_assoc, Rinv_l by lra; lra).
  set (q := a / b) in *. set (f := IZR (Zfloor q)) in *.
  split; rewrite Ea at 1; nra.
Qed.

Lemma atan_nonpos (t : R) : t <= 0 -> atan t <= 0.
Proof.
  intros [Ht | ->]; [|rewrite atan_0; lra].
  rewrite <- atan_0. left. apply atan_increasing. exact Ht.
Qed.

Lemma atan_pos (t : R) : 0 < t -> 0 < atan t.
Proof. intros Ht. rewrite <- atan_0. apply atan_increasing. exact Ht. Qed.

Lemma Math_atan2_range (y x : R) : - PI < Js.Math_atan2 y x <= PI.
Proof.
  pose proof PI_RGT_0 as Hpi. pose proof (atan_bound (y / x)) as Hb.
  unfold Js.Math_atan2.
  destruct (Rlt_dec 0 x) as [Hx | Hx]; [lra|].
  destruct (Rlt_dec x 0) as [Hx' | Hx'].
  - destruct (Rle_dec 0 y) as [Hy | Hy].
    + assert (atan (y / x) <= 0); [|lra].
      apply atan_nonpos. unfold Rdiv.
      assert (/ x < 0) by (apply Rinv_lt_0_compat; exact Hx'). nra.
    + assert (0 < atan (y / x)); [|lra].
      apply atan_pos. unfold Rdiv.
      assert (/ x < 0) by (apply Rinv_lt_0_compat; exact Hx'). nra.
  - destruct (Rlt_dec 0 y); [lra|]. destruct (Rlt_dec y 0); lra.
Qed.

Lemma degreesOf_range (dx dy : R) : -180 < degreesOf dx dy <= 180.
Proof.
  pose proof PI_RGT_0 as Hpi. pose proof (Math_atan2_range dx dy) as [Hlo Hhi].
  unfold degreesOf, Js.Math_PI.
  assert (Hi : 0 < / PI) by (apply Rinv_0_lt_compat; exact Hpi).
  assert (E : forall a, a * 180 / PI = 180 * (a * / PI)) by (intros; unfold Rdiv; ring).
  rewrite E.
  assert (E1 : PI * / PI = 1) by (apply Rinv_r; lra).
  set (a := Js.Math_atan2 dx dy) in *.
  assert (0 <= (PI - a) * / PI) by (apply Rmult_le_pos; lra).
  assert (0 < (a + PI) * / PI) by (apply Rmult_lt_0_compat; lra).
  lra.
Qed.

Lemma bearingOf_cases (dx dy : R) :
  bearingOf dx dy =
  if Rlt_dec (degreesOf dx dy) 0 then degreesOf dx dy + 360 else degreesOf dx dy.
Proof.
  pose proof (degreesOf_range dx dy) as [Hlo Hhi].
  unfold bearingOf. fold (degreesOf dx dy).
  destruct (Rlt_dec (degreesOf dx dy) 0) as [Hn | Hn].
  - rewrite (rem_eq _ 360 0) by lra. lra.
  - rewrite (rem_eq _ 360 1) by lra. lra.
Qed.

Lemma bearingOf_range (dx dy : R) : 0 <= bearingOf dx dy < 360.
Proof.
  pose proof (degreesOf_range dx dy) as [Hlo Hhi].
  rewrite bearingOf_cases. destruct (Rlt_dec (degreesOf dx dy) 0); lra.
Qed.

Lemma foldDeflection_range (d : R) :
  -360 < d < 360 -> -180 <= foldDeflection d <= 180.
Proof.
  intros [Hlo Hhi]. unfold foldDeflection.
  destruct (Rlt_dec 180 d).
  - destruct (Rlt_dec (d - 360) (-180)); lra.
  - destruct (Rlt_dec d (-180)); lra.
Qed.

(** ** The loop, turn by turn *)

Section AnalyticsFacts.
Context `{GeometryEngine}.
Variable polyline : Polyline.t.
Variable path : Path.

Lemma nextOf_Some (i : nat) :
  (i + 1 < List.length path)%nat -> nextOf path i = nth_error path (i + 1).
Proof.
  intros Hi. unfold nextOf.
  replace (i <? List.length path - 1)%nat with true; [reflexivity|].
  symmetry. apply Nat.ltb_lt. lia.
Qed.

Lemma nextOf_None (i : nat) :
  (List.length path <= i + 1)%nat -> nextOf path i = None.
Proof.
  intros Hi. unfold nextOf.
  replace (i <? List.length path - 1)%nat with false; [reflexivity|].
  symmetry. apply Nat.ltb_ge. lia.
Qed.

Lemma vertexAt_carry (i : nat) (current : Point) (c : R) :
  nth_error path i = Some current ->
  snd (vertexAt polyline path i current c) = c + outgoing polyline path i.
Proof.
  intros Hc. unfold vertexAt, outgoing. fold (nextOf path i). rewrite Hc.
  destruct (nextOf path i) as [next|];
    destruct (if (0 <? i)%nat then nth_error path (i - 1) else None) as [prev|];
    try destruct (bendOf prev current next);
    try destruct (if (i =? 0)%nat then _ else _);
    simpl; lra.
Qed.

Lemma nth_error_nth_default (i : nat) (current : Point) :
  nth_error path i = Some current -> nth i path (0, 0) = current.
Proof. intros Hc. apply nth_error_nth. exact Hc. Qed.

Lemma loop_records (n : nat) :
  forall (i : nat) (vertices : list VertexInfo.t),
    (i + n = List.length path)%nat ->
    loop polyline path n i (reached polyline path i) vertices
    = Ok (vertices ++ map (recordAt polyline path) (seq i n)).
Proof.
  induction n as [|n IH]; intros i vertices Hlen; simpl.
  - rewrite app_nil_r. reflexivity.
  - unfold item.
    destruct (nth_error path i) as [current|] eqn:Hc.
    2:{ apply nth_error_None in Hc. lia. }
    simpl.
    pose proof (vertexAt_carry i current (reached polyline path i) Hc) as Hcarry.
    assert (Hrec : recordAt polyline path i = fst (vertexAt polyline path i current (reached polyline path i))).
    { unfold recordAt. rewrite (nth_error_nth_default i current Hc). reflexivity. }
    destruct (vertexAt polyline path i current (reached polyline path i)) as [v c'].
    simpl in Hcarry, Hrec. subst c'.
    change (reached polyline path i + outgoing polyline path i) with (reached polyline path (S i)).
    rewrite IH by lia. rewrite <- app_assoc. simpl. rewrite Hrec. reflexivity.
Qed.

End AnalyticsFacts.

Lemma computeVertexAnalytics_records `{GeometryEngine}
    (polyline : Polyline.t) (path : Path) :
  nth_error (Polyline.paths polyline) 0 = Some path ->
  (2 <= List.length path)%nat ->
  computeVertexAnalytics polyline
  = Ok (map (recordAt polyline path) (seq 0 (List.length path))).
Proof.
  intros Hp Hn. unfold computeVertexAnalytics. rewrite Hp.
  replace (List.length path <? 2)%nat with false
    by (symmetry; apply Nat.ltb_ge; lia).
  change 0 with (reached polyline path 0) at 1.
  rewrite loop_records by lia. reflexivity.
Qed.

Lemma nth_error_map_seq {A : Type} (f : nat -> A) (n i : nat) (v : A) :
  nth_error (map f (seq 0 n)) i = Some v -> (i < n)%nat /\ v = f i.
Proof.
  intros Hv.
  assert (Hi : (i < n)%nat).
  { assert (Hs : nth_error (map f (seq 0 n)) i <> None) by congruence.
    apply nth_error_Some in Hs. rewrite length_map, length_seq in Hs. exact Hs. }
  split; [exact Hi|].
  rewrite nth_error_map, nth_error_seq in Hv.
  replace (i <? n)%nat with true in Hv by (symmetry; apply Nat.ltb_lt; exact Hi).
  simpl in Hv. congruence.
Qed.

Section RecordFields.
Context `{GeometryEngine}.
Variable polyline : Polyline.t.
Variable path : Path.

Lemma recordAt_fields (i : nat) (current : Point) :
  nth_error path i = Some current ->
  recordAt polyline path i
  = VertexInfo.mk i (fst current) (snd current)
      (bearingAt path i current) (decimalToDMS (bearingAt path i current))
      (fst (bendAt path i current)) (snd (bendAt path i current))
      (outgoing polyline path i) (reached polyline path i).
Proof.
  intros Hc. unfold recordAt. rewrite (nth_error_nth_default path i current Hc).
  unfold vertexAt, bearingAt, bendAt, outgoing.
  fold (nextOf path i). fold (prevOf path i). rewrite Hc.
  assert (Hd : forall s : R,
             (if (i =? 0)%nat then 0 else reached polyline path i + s - s)
             = reached polyline path i).
  { intros s. destruct i; simpl; [reflexivity | lra]. }
  assert (Hd0 : (if (i =? 0)%nat then 0 else reached polyline path i - 0)
                = reached polyline path i).
  { destruct i; simpl; [reflexivity | lra]. }
  destruct (nextOf path i) as [next|]; destruct (prevOf path i) as [prev|];
    try destruct (bendOf prev current next) as [a d];
    try destruct (if (i =? 0)%nat then _ else _) as [a d];
    simpl; rewrite ?Hd, ?Hd0; reflexivity.
Qed.

End RecordFields.

(** ** Short centerlines *)

Lemma computeVertexAnalytics_few `{GeometryEngine} (polyline : Polyline.t) :
  (vertexCount polyline < 2)%nat ->
  computeVertexAnalytics polyline = Ok [].
Proof.
  unfold vertexCount, computeVertexAnalytics. intros Hn.
  destruct (nth_error (Polyline.paths polyline) 0) as [path|]; [|reflexivity].
  replace (List.length path <? 2)%nat with true; [reflexivity|].
  symmetry. apply Nat.ltb_lt. exact Hn.
Qed.

(** C9: a centerline whose path has fewer than 2 points, or that has no
    path at all, gets the empty sequence of records, and no exception. *)
Theorem computeVertexAnalytics_short `{GeometryEngine} (polyline : Polyline.t) :
  (forall path : Path,
      nth_error (Polyline.paths polyline) 0 = Some path ->
      (List.length path < 2)%nat) ->
  computeVertexAnalytics polyline = Ok [].
Proof.
  intros Hshort. apply computeVertexAnalytics_few. unfold vertexCount.
  destruct (nth_error (Polyline.paths polyline) 0) as [path|] eqn:Hp.
  - apply Hshort. reflexivity.
  - lia.
Qed.

Lemma computeVertexAnalytics_short_witness :
  (forall path : Path,
      nth_error (Polyline.paths singlePoint) 0 = Some path ->
      (List.length path < 2)%nat)
  /\ @computeVertexAnalytics planarEngine singlePoint = Ok [].
Proof.
  assert (Hshort : forall path : Path,
             nth_error (Polyline.paths singlePoint) 0 = Some path ->
             (List.length path < 2)%nat).
  { intros path Hp. injection Hp as <-. simpl. lia. }
  split; [exact Hshort|].
  apply (@computeVertexAnalytics_short planarEngine singlePoint). exact Hshort.
Defined.

Lemma computeVertexAnalytics_no_path `{GeometryEngine} (sr : SpatialReference) :
  computeVertexAnalytics (Polyline.mk [] sr) = Ok [].
Proof. reflexivity. Qed.

(** C10: with exactly 2 vertices the record at index 0 is labelled Start
    and the record at index 1 End, both with bend angle 0. *)
Theorem two_vertices_start_end `{GeometryEngine}
    (a b : Point) (rest : list Path) (sr : SpatialReference) :
  exists v0 v1 : VertexInfo.t,
    computeVertexAnalytics (Polyline.mk ([a; b] :: rest) sr) = Ok [v0; v1]
    /\ VertexInfo.index v0 = 0%nat
    /\ VertexInfo.bendDirection v0 = "Start"%string
    /\ VertexInfo.bendAngle v0 = 0
    /\ VertexInfo.index v1 = 1%nat
    /\ VertexInfo.bendDirection v1 = "End"%string
    /\ VertexInfo.bendAngle v1 = 0.
Proof.
  set (polyline := Polyline.mk ([a; b] :: rest) sr).
  exists (recordAt polyline [a; b] 0), (recordAt polyline [a; b] 1).
  split.
  - rewrite (computeVertexAnalytics_records polyline [a; b]);
      [reflexivity | reflexivity | simpl; lia].
  - rewrite (recordAt_fields polyline [a; b] 0 a) by reflexivity.
    rewrite (recordAt_fields polyline [a; b] 1 b) by reflexivity.
    repeat split.
Qed.

(** ** Bearings *)

(** C7: every record carries a bearing in [0, 360).  Where a next vertex
    exists the bearing is the angle atan2(dx, dy) in degrees, taken modulo
    360, of the step from the vertex to the next one; at the last vertex
    it is 0. *)
Theorem bearings_normalized `{GeometryEngine}
    (polyline : Polyline.t) (path : Path) :
  nth_error (Polyline.paths polyline) 0 = Some path ->
  (2 <= List.length path)%nat ->
  exists vertices : list VertexInfo.t,
    computeVertexAnalytics polyline = Ok vertices
    /\ List.length vertices = List.length path
    /\ forall (i : nat) (v : VertexInfo.t),
         nth_error vertices i = Some v ->
         0 <= VertexInfo.bearing v < 360
         /\ (forall current next : Point,
               nth_error path i = Some current ->
               nth_error path (i + 1) = Some next ->
               let deg :=
                 Js.Math_atan2 (fst next - fst current) (snd next - snd current)
                 * 180 / Js.Math_PI in
               (deg < 0 -> VertexInfo.bearing v = deg + 360)
               /\ (0 <= deg -> VertexInfo.bearing v = deg))
         /\ ((i + 1)%nat = List.length path -> VertexInfo.bearing v = 0).
Proof.
  intros Hp Hn. eexists. split; [apply computeVertexAnalytics_records; eassumption|].
  split; [rewrite length_map, length_seq; reflexivity|].
  intros i v Hv. apply nth_error_map_seq in Hv. destruct Hv as [Hi ->].
  destruct (nth_error path i) as [current|] eqn:Hc.
  2:{ apply nth_error_None in Hc. lia. }
  rewrite (recordAt_fields polyline path i current Hc). simpl.
  unfold bearingAt. split; [|split].
  - destruct (nextOf path i); [apply bearingOf_range | lra].
  - intros current' next Hc' Hnext. cbv zeta.
    assert (Hi1 : (i + 1 < List.length path)%nat)
      by (apply nth_error_Some; congruence).
    rewrite (nextOf_Some path i Hi1), Hnext.
    assert (current' = current) as -> by congruence.
    rewrite bearingOf_cases. unfold degreesOf.
    destruct (Rlt_dec _ 0); split; intros; trivial; lra.
  - intros Hlast. rewrite (nextOf_None path i) by lia. reflexivity.
Qed.

Lemma bearings_normalized_witness :
  nth_error (Polyline.paths straightLine) 0 = Some [(0, 0); (0, 100)]
  /\ (2 <= List.length [(0, 0); (0, 100)])%nat
  /\ exists vertices : list VertexInfo.t,
       @computeVertexAnalytics planarEngine straightLine = Ok vertices
       /\ List.length vertices = List.length [(0, 0); (0, 100)]
       /\ forall (i : nat) (v : VertexInfo.t),
            nth_error vertices i = Some v ->
            0 <= VertexInfo.bearing v < 360
            /\ (forall current next : Point,
                  nth_error [(0, 0); (0, 100)] i = Some current ->
                  nth_error [(0, 0); (0, 100)] (i + 1) = Some next ->
                  let deg :=
                    Js.Math_atan2 (fst next - fst current) (snd next - snd current)
                    * 180 / Js.Math_PI in
                  (deg < 0 -> VertexInfo.bearing v = deg + 360)
                  /\ (0 <= deg -> VertexInfo.bearing v = deg))
            /\ ((i + 1)%nat = List.length [(0, 0); (0, 100)] ->
                VertexInfo.bearing v = 0).
Proof.
  split; [reflexivity|]. split; [simpl; lia|].
  apply (@bearings_normalized planarEngine straightLine [(0, 0); (0, 100)]);
    [reflexivity | simpl; lia].
Defined.

(** ** The running distance *)

(** C5: on the centerline (0,0), (0,0.1), (0,0.1), (0,0.8), whose segments
    measure 0.1, 0 and 0.7000000000000001 in the plane, and under every
    engine that answers these three lengths, the four records hold the
    segment lengths 0.1, 0, 0.7000000000000001 and 0 and the distances from
    start 0, 0.1, 0.09999999999999998 and 0.8.  The distance at index 2 is
    below the distance at index 1, and it is not the 0.1 that leads to its
    vertex: it is the rounded 0.1 + 0.7000000000000001 less
    0.7000000000000001. *)
Theorem running_distance_decreases :
  (Binary64.planarLength Binary64.south Binary64.middle = Binary64.d0_1
   /\ Binary64.planarLength Binary64.middle Binary64.middle = PrimFloat.zero
   /\ Binary64.planarLength Binary64.middle Binary64.north
      = Binary64.d0_7000000000000001)
  /\ (forall geodesicLength : Binary64.Point -> Binary64.Point -> PrimFloat.float,
        geodesicLength Binary64.south Binary64.middle = Binary64.d0_1 ->
        geodesicLength Binary64.middle Binary64.middle = PrimFloat.zero ->
        geodesicLength Binary64.middle Binary64.north
        = Binary64.d0_7000000000000001 ->
        Binary64.computeVertexAnalytics geodesicLength [Binary64.repeatedSecond]
        = Ok [Binary64.VertexInfo.mk 0 PrimFloat.zero PrimFloat.zero
                Binary64.d0_1 PrimFloat.zero;
              Binary64.VertexInfo.mk 1 PrimFloat.zero Binary64.d0_1
                PrimFloat.zero Binary64.d0_1;
              Binary64.VertexInfo.mk 2 PrimFloat.zero Binary64.d0_1
                Binary64.d0_7000000000000001 Binary64.d0_09999999999999998;
              Binary64.VertexInfo.mk 3 PrimFloat.zero Binary64.d0_8
                PrimFloat.zero Binary64.d0_8])
  /\ PrimFloat.ltb Binary64.d0_09999999999999998 Binary64.d0_1 = true
  /\ PrimFloat.add Binary64.d0_1 Binary64.d0_7000000000000001 = Binary64.d0_8
  /\ PrimFloat.sub Binary64.d0_8 Binary64.d0_7000000000000001
     = Binary64.d0_09999999999999998.
Proof.
  split; [repeat split; reflexivity|].
  split; [|repeat split; reflexivity].
  intros geodesicLength Hfirst Hrepeated Hlast.
  unfold Binary64.computeVertexAnalytics, Binary64.repeatedSecond.
  cbn [nth_error List.length Nat.ltb Nat.leb].
  cbn [Binary64.loop item bind nth_error].
  unfold Binary64.vertexAt.
  cbn [List.length Nat.sub Nat.add Nat.ltb Nat.leb Nat.eqb nth_error app].
  rewrite Hfirst, Hrepeated, Hlast. reflexivity.
Qed.

(** ** Bends *)

Lemma bearingOf_north (dy : R) : 0 < dy -> bearingOf 0 dy = 0.
Proof.
  intros Hdy. rewrite bearingOf_cases. unfold degreesOf, Js.Math_atan2.
  destruct (Rlt_dec 0 dy); [|contradiction].
  replace (0 / dy) with 0 by (unfold Rdiv; ring). rewrite atan_0.
  replace (0 * 180 / Js.Math_PI) with 0
    by (unfold Js.Math_PI; field; apply PI_neq0).
  decide_R.
Qed.

Lemma bearingOf_east (dx : R) : 0 < dx -> bearingOf dx 0 = 90.
Proof.
  intros Hdx. rewrite bearingOf_cases. unfold degreesOf, Js.Math_atan2.
  destruct (Rlt_dec 0 0); [lra|]. destruct (Rlt_dec 0 dx); [|contradiction].
  replace (PI / 2 * 180 / Js.Math_PI) with 90
    by (unfold Js.Math_PI; field; apply PI_neq0).
  decide_R.
Qed.

Lemma bearingOf_south (dy : R) : dy < 0 -> bearingOf 0 dy = 180.
Proof.
  intros Hdy. rewrite bearingOf_cases. unfold degreesOf, Js.Math_atan2.
  destruct (Rlt_dec 0 dy); [lra|]. destruct (Rlt_dec dy 0); [|contradiction].
  destruct (Rle_dec 0 0); [|lra].
  replace (0 / dy) with 0 by (unfold Rdiv; ring). rewrite atan_0.
  replace ((0 + PI) * 180 / Js.Math_PI) with 180
    by (unfold Js.Math_PI; field; apply PI_neq0).
  decide_R.
Qed.

Lemma foldDeflection_small (d : R) : -180 <= d <= 180 -> foldDeflection d = d.
Proof. intros [Hlo Hhi]. unfold foldDeflection. decide_R. Qed.

Lemma bendOf_north_then_east :
  bendOf (0, 0) (0, 100) (100, 100) = (90, "Left"%string).
Proof.
  unfold bendOf. simpl fst. simpl snd.
  replace (0 - 0) with 0 by lra. replace (100 - 0) with 100 by lra.
  replace (100 - 100) with 0 by lra.
  rewrite bearingOf_north, bearingOf_east by lra.
  replace (90 - 0) with 90 by lra.
  rewrite foldDeflection_small by lra.
  unfold Js.Math_abs. rewrite (Rabs_pos_eq 90) by lra.
  destruct (Rlt_dec 1 90); [|lra]. destruct (Rlt_dec 0 90); [|lra].
  reflexivity.
Qed.

Lemma bendOf_south_then_north :
  bendOf (0, 100) (0, 0) (0, 100) = (180, "Right"%string).
Proof.
  unfold bendOf. simpl fst. simpl snd.
  replace (0 - 0) with 0 by lra. replace (100 - 0) with 100 by lra.
  replace (0 - 100) with (-100) by lra.
  rewrite bearingOf_north, bearingOf_south by lra.
  replace (0 - 180) with (-180) by lra.
  rewrite foldDeflection_small by lra.
  unfold Js.Math_abs.
  replace (Rabs (-180)) with 180 by (rewrite Rabs_left; lra).
  destruct (Rlt_dec 1 180); [|lra]. destruct (Rlt_dec 0 (-180)); [lra|].
  reflexivity.
Qed.

Lemma normalize180_unique (d : R) (k : Z) :
  -180 < d - 360 * IZR k <= 180 -> normalize180 d = d - 360 * IZR k.
Proof.
  intros [Hlo Hhi]. unfold normalize180.
  replace (Zceil ((d - 180) / 360)) with k; [reflexivity|].
  symmetry. apply Zceil_eq.
  assert (E : d = 360 * ((d - 180) / 360) + 180) by field.
  set (q := (d - 180) / 360) in *. lra.
Qed.

Lemma foldDeflection_normalize (raw : R) :
  -360 < raw < 360 -> raw <> -180 -> foldDeflection raw = normalize180 raw.
Proof.
  intros [Hlo Hhi] Hne. unfold foldDeflection.
  destruct (Rlt_dec 180 raw).
  - destruct (Rlt_dec (raw - 360) (-180)); [lra|].
    rewrite (normalize180_unique raw 1); lra.
  - destruct (Rlt_dec raw (-180)).
    + rewrite (normalize180_unique raw (-1)); lra.
    + rewrite (normalize180_unique raw 0); lra.
Qed.

Lemma direction_cases (d : R) :
  let direction :=
    (if Rlt_dec 1 (Js.Math_abs d)
     then (if Rlt_dec 0 d then "Left" else "Right")
     else "Straight")%string in
  direction = directionOf d
  /\ (Rabs d <= 1 -> direction = "Straight"%string)
  /\ (1 < d -> direction = "Left"%string)
  /\ (d < -1 -> direction = "Right"%string).
Proof.
  cbv zeta. unfold directionOf, Js.Math_abs, Rabs.
  destruct (Rcase_abs d); decide_R; repeat split; intros; try reflexivity; lra.
Qed.

Lemma computeVertexAnalytics_total `{GeometryEngine} (polyline : Polyline.t) :
  exists vertices : list VertexInfo.t, computeVertexAnalytics polyline = Ok vertices.
Proof.
  destruct (nth_error (Polyline.paths polyline) 0) as [path|] eqn:Hp.
  - destruct (le_lt_dec 2 (List.length path)) as [Hn | Hn].
    + eexists. apply computeVertexAnalytics_records; eassumption.
    + exists []. apply computeVertexAnalytics_few.
      unfold vertexCount. rewrite Hp. exact Hn.
  - exists []. apply computeVertexAnalytics_few.
    unfold vertexCount. rewrite Hp. lia.
Qed.

Lemma interior_record `{GeometryEngine}
    (polyline : Polyline.t) (path : Path) (i : nat) (prev current next : Point) :
  nth_error path i = Some prev ->
  nth_error path (i + 1) = Some current ->
  nth_error path (i + 2) = Some next ->
  VertexInfo.bendAngle (recordAt polyline path (i + 1))
  = fst (bendOf prev current next)
  /\ VertexInfo.bendDirection (recordAt polyline path (i + 1))
     = snd (bendOf prev current next).
Proof.
  intros Hprev Hcur Hnext.
  assert (Hlen : (i + 2 < List.length path)%nat)
    by (apply nth_error_Some; congruence).
  rewrite (recordAt_fields polyline path (i + 1) current Hcur). simpl.
  unfold bendAt, prevOf.
  rewrite (nextOf_Some path (i + 1)) by lia.
  replace (i + 1 + 1)%nat with (i + 2)%nat by lia. rewrite Hnext.
  replace (0 <? i + 1)%nat with true by (symmetry; apply Nat.ltb_lt; lia).
  replace (i + 1 - 1)%nat with i by lia. rewrite Hprev.
  split; reflexivity.
Qed.

(** C1: on the centerline (0,0), (0,100), (100,100) the record of the middle
    vertex has bend angle 90 and the bend direction Left; the direction is
    not Right. *)
Theorem right_angle_bend_is_left `{GeometryEngine} :
  exists (vertices : list VertexInfo.t) (v : VertexInfo.t),
    computeVertexAnalytics rightAngle = Ok vertices
    /\ nth_error vertices 1 = Some v
    /\ VertexInfo.bendAngle v = 90
    /\ VertexInfo.bendDirection v = "Left"%string
    /\ VertexInfo.bendDirection v <> "Right"%string.
Proof.
  set (path := [(0, 0); (0, 100); (100, 100)]).
  exists (map (recordAt rightAngle path) (seq 0 (List.length path))).
  exists (recordAt rightAngle path 1).
  split; [apply computeVertexAnalytics_records; [reflexivity | simpl; lia]|].
  split; [reflexivity|].
  destruct (interior_record rightAngle path 0 (0, 0) (0, 100) (100, 100))
    as [Hangle Hdir]; try reflexivity.
  change (0 + 1)%nat with 1%nat in Hangle, Hdir.
  rewrite bendOf_north_then_east in Hangle, Hdir.
  rewrite Hangle, Hdir. simpl. repeat split. discriminate.
Qed.

(** C6, as the specification words it, fails where the line folds back from
    due south to due north: the difference of the bearings is -180, the code
    keeps it and answers Right, while the representative in (-180, 180] is
    180, which reads Left. *)
Lemma folded_back_not_as_specified :
  exists (vertices : list VertexInfo.t) (v : VertexInfo.t),
    @computeVertexAnalytics planarEngine foldedBack = Ok vertices
    /\ nth_error vertices 1 = Some v
    /\ ~ specifiedBend (0, 100) (0, 0) (0, 100) v.
Proof.
  set (path := [(0, 100); (0, 0); (0, 100)]).
  exists (map (@recordAt planarEngine foldedBack path) (seq 0 (List.length path))).
  exists (@recordAt planarEngine foldedBack path 1).
  split; [apply computeVertexAnalytics_records; [reflexivity | simpl; lia]|].
  split; [reflexivity|].
  destruct (@interior_record planarEngine foldedBack path 0 (0, 100) (0, 0) (0, 100))
    as [_ Hdir]; try reflexivity.
  change (0 + 1)%nat with 1%nat in Hdir.
  rewrite bendOf_south_then_north in Hdir. simpl snd in Hdir.
  intros (Hspec & _). rewrite Hdir in Hspec. revert Hspec.
  simpl fst. simpl snd.
  replace (0 - 0) with 0 by lra. replace (100 - 0) with 100 by lra.
  replace (0 - 100) with (-100) by lra.
  rewrite bearingOf_north, bearingOf_south by lra.
  rewrite (normalize180_unique (0 - 180) (-1)) by lra.
  unfold directionOf.
  replace (0 - 180 - 360 * -1) with 180 by lra.
  rewrite (Rabs_pos_eq 180) by lra.
  destruct (Rle_dec 180 1); [lra|]. destruct (Rlt_dec 1 180); [|lra].
  discriminate.
Qed.

(** C6, amended: at every interior vertex the deflection is the outgoing
    bearing minus the incoming one, lowered by 360 when above 180 and raised
    by 360 when below -180.  It lies in [-180, 180], and is the
    representative in (-180, 180] unless the difference is exactly -180,
    which is kept.  The direction is Straight when its absolute value is at
    most 1, Left when it is above 1, Right when it is below -1; the bend
    angle is its absolute value and lies in [0, 180]. *)
Theorem bend_classification `{GeometryEngine}
    (polyline : Polyline.t) (path : Path) :
  nth_error (Polyline.paths polyline) 0 = Some path ->
  exists vertices : list VertexInfo.t,
    computeVertexAnalytics polyline = Ok vertices
    /\ forall (i : nat) (prev current next : Point) (v : VertexInfo.t),
         nth_error path i = Some prev ->
         nth_error path (i + 1) = Some current ->
         nth_error path (i + 2) = Some next ->
         nth_error vertices (i + 1) = Some v ->
         let incoming := bearingOf (fst current - fst prev) (snd current - snd prev) in
         let outgoing := bearingOf (fst next - fst current) (snd next - snd current) in
         let deflection := foldDeflection (outgoing - incoming) in
         -180 <= deflection <= 180
         /\ (outgoing - incoming <> -180 ->
             deflection = normalize180 (outgoing - incoming))
         /\ (outgoing - incoming = -180 -> deflection = -180)
         /\ (Rabs deflection <= 1 -> VertexInfo.bendDirection v = "Straight"%string)
         /\ (1 < deflection -> VertexInfo.bendDirection v = "Left"%string)
         /\ (deflection < -1 -> VertexInfo.bendDirection v = "Right"%string)
         /\ VertexInfo.bendAngle v = Rabs deflection
         /\ 0 <= VertexInfo.bendAngle v <= 180.
Proof.
  intros Hp. destruct (computeVertexAnalytics_total polyline) as [vertices Hvs].
  exists vertices. split; [exact Hvs|].
  intros i prev current next v Hprev Hcur Hnext Hv incoming outgoing deflection.
  assert (Hlen : (i + 2 < List.length path)%nat)
    by (apply nth_error_Some; congruence).
  rewrite (computeVertexAnalytics_records polyline path Hp) in Hvs by lia.
  injection Hvs as <-.
  apply nth_error_map_seq in Hv. destruct Hv as [_ ->].
  destruct (interior_record polyline path i prev current next Hprev Hcur Hnext)
    as [-> ->].
  unfold bendOf. cbv zeta. simpl fst. simpl snd.
  fold incoming. fold outgoing. fold deflection.
  pose proof (bearingOf_range (fst current - fst prev) (snd current - snd prev)) as Hin.
  pose proof (bearingOf_range (fst next - fst current) (snd next - snd current)) as Hout.
  fold incoming in Hin. fold outgoing in Hout.
  assert (Hraw : -360 < outgoing - incoming < 360) by lra.
  pose proof (foldDeflection_range _ Hraw) as Hrange. fold deflection in Hrange.
  destruct (direction_cases deflection) as (_ & Hs & Hl & Hr).
  split; [exact Hrange|].
  split; [intros Hne; apply foldDeflection_normalize; assumption|].
  split; [intros He; unfold deflection; rewrite He; apply foldDeflection_small; lra|].
  split; [exact Hs|]. split; [exact Hl|]. split; [exact Hr|].
  unfold Js.Math_abs. split; [reflexivity|].
  split; [apply Rabs_pos | apply Rabs_le; lra].
Qed.

Lemma bend_classification_witness :
  nth_error (Polyline.paths rightAngle) 0 = Some [(0, 0); (0, 100); (100, 100)]
  /\ exists vertices : list VertexInfo.t,
       @computeVertexAnalytics planarEngine rightAngle = Ok vertices
       /\ forall (i : nat) (prev current next : Point) (v : VertexInfo.t),
            nth_error [(0, 0); (0, 100); (100, 100)] i = Some prev ->
            nth_error [(0, 0); (0, 100); (100, 100)] (i + 1) = Some current ->
            nth_error [(0, 0); (0, 100); (100, 100)] (i + 2) = Some next ->
            nth_error vertices (i + 1) = Some v ->
            let incoming :=
              bearingOf (fst current - fst prev) (snd current - snd prev) in
            let outgoing :=
              bearingOf (fst next - fst current) (snd next - snd current) in
            let deflection := foldDeflection (outgoing - incoming) in
            -180 <= deflection <= 180
            /\ (outgoing - incoming <> -180 ->
                deflection = normalize180 (outgoing - incoming))
            /\ (outgoing - incoming = -180 -> deflection = -180)
            /\ (Rabs deflection <= 1 ->
                VertexInfo.bendDirection v = "Straight"%string)
            /\ (1 < deflection -> VertexInfo.bendDirection v = "Left"%string)
            /\ (deflection < -1 -> VertexInfo.bendDirection v = "Right"%string)
            /\ VertexInfo.bendAngle v = Rabs deflection
            /\ 0 <= VertexInfo.bendAngle v <= 180.
Proof.
  split; [reflexivity|].
  apply (@bend_classification planarEngine rightAngle
           [(0, 0); (0, 100); (100, 100)]).
  reflexivity.
Defined.

(** ** Degrees, minutes, seconds *)

(** The three integers are floors: the degrees are the floor of the
    bearing, and minutes and seconds stay within 0..59 and never round up
    past the bearing. *)
Lemma dms_truncates (decimal : R) :
  IZR (dmsDegrees decimal) <= decimal < IZR (dmsDegrees decimal) + 1
  /\ (0 <= dmsMinutes decimal <= 59)%Z
  /\ (0 <= dmsSeconds decimal <= 59)%Z
  /\ IZR (dmsDegrees decimal) + IZR (dmsMinutes decimal) / 60
     + IZR (dmsSeconds decimal) / 3600 <= decimal
  /\ decimal < IZR (dmsDegrees decimal) + IZR (dmsMinutes decimal) / 60
               + (IZR (dmsSeconds decimal) + 1) / 3600.
Proof.
  unfold dmsSeconds, dmsMinutes, dmsDegrees, Js.Math_floor.
  pose proof (Zfloor_bound decimal) as Hd.
  set (d := Zfloor decimal) in *.
  pose proof (Zfloor_bound ((decimal - IZR d) * 60)) as Hm.
  set (m := Zfloor ((decimal - IZR d) * 60)) in *.
  pose proof (Zfloor_bound (((decimal - IZR d) * 60 - IZR m) * 60)) as Hs.
  set (s := Zfloor (((decimal - IZR d) * 60 - IZR m) * 60)) in *.
  assert (Hm0 : (0 <= m)%Z) by (apply Zfloor_lub; lra).
  assert (Hm59 : (m < 60)%Z) by (apply lt_IZR; lra).
  assert (Hs0 : (0 <= s)%Z) by (apply Zfloor_lub; lra).
  assert (Hs59 : (s < 60)%Z) by (apply lt_IZR; lra).
  repeat split; try lia; lra.
Qed.

(** C3: formatting the bearing 45.5 yields 45, then the two characters
    U+00C2 U+00B0, then a blank, 30, an apostrophe, a blank, 0 and a double
    quote; this is not the string with the single degree sign U+00B0. *)
Theorem decimalToDMS_45_5 :
  decimalToDMS (455 / 10) = ("45Â° 30' 0" ++ dquote)%string
  /\ decimalToDMS (455 / 10) <> dms_45_5_expected.
Proof.
  split; [exact decimalToDMS_45_5_string|].
  rewrite decimalToDMS_45_5_string. intros E. vm_compute in E. discriminate E.
Qed.

(** ** Area and perimeter *)

Lemma buildRowPolygon_straight :
  @buildRowPolygon planarEngine straightLine 10 10 = Ok straightRow.
Proof.
  unfold buildRowPolygon, straightLine, straightRow. simpl.
  replace (0 + 10) with 10 by lra. replace (0 + Ropp 10) with (-10) by lra.
  reflexivity.
Qed.

Lemma sqrt_of_square (a b : R) : 0 <= b -> a = b * b -> sqrt a = b.
Proof. intros Hb ->. apply sqrt_square. exact Hb. Qed.

(** C2: calculateArea hands back the area the engine measured as it is,
    sign included: under every engine and for every polygon it is the
    absolute area exactly when the engine's own answer is not negative.
    Over the planar engine the polygon that buildRowPolygon makes of the
    straight centerline (0,0), (0,100) with widths 10 and 10 has perimeter
    240 and absolute area 2000, and calculateArea returns -2000 for it; for
    the same ring walked the other way round it returns 2000. *)
Theorem calculateArea_is_signed :
  (forall (engine : GeometryEngine) (polygon : Polygon.t),
      @calculateArea engine polygon = @geodesicArea engine polygon "square-meters"
      /\ (@calculateArea engine polygon = @absoluteArea engine polygon
          <-> 0 <= @geodesicArea engine polygon "square-meters"))
  /\ @buildRowPolygon planarEngine straightLine 10 10 = Ok straightRow
  /\ @calculateArea planarEngine straightRow = -2000
  /\ @absoluteArea planarEngine straightRow = 2000
  /\ @calculatePerimeter planarEngine straightRow = 240
  /\ @calculateArea planarEngine
       (Polygon.mk (map (@rev (option Point)) (Polygon.rings straightRow)) 3857%Z)
     = 2000.
Proof.
  split.
  { intros engine polygon. split; [reflexivity|].
    unfold calculateArea, absoluteArea.
    set (a := geodesicArea polygon "square-meters"). split.
    - intros ->. apply Rabs_pos.
    - intros Ha. symmetry. apply Rabs_right. lra. }
  split; [exact buildRowPolygon_straight|].
  assert (Harea : @geodesicArea planarEngine straightRow "square-meters" = -2000).
  { unfold straightRow. cbn. unfold planarGeodesicArea. cbn. lra. }
  split; [exact Harea|].
  split; [unfold absoluteArea; rewrite Harea, Rabs_left by lra; lra|].
  split.
  - unfold calculatePerimeter, straightRow. cbn. unfold planarGeodesicLength.
    cbn [Polygon.rings map defined planarLength total fold_right fst snd].
    rewrite (sqrt_of_square _ 100) by lra.
    rewrite (sqrt_of_square _ 20) by lra.
    rewrite (sqrt_of_square _ 100) by lra.
    rewrite (sqrt_of_square _ 20) by lra.
    lra.
  - unfold calculateArea, straightRow. cbn. unfold planarGeodesicArea. cbn. lra.
Qed.

(** ** The ring of buildRowPolygon *)

Lemma buildRowPolygon_stitch `{GeometryEngine}
    (centerline leftOffset rightOffset : Polyline.t) (leftWidth rightWidth : R)
    (leftPath rightPath : Path) :
  offset centerline leftWidth "meters" "miter" = Some leftOffset ->
  offset centerline (- rightWidth) "meters" "miter" = Some rightOffset ->
  nth_error (Polyline.paths leftOffset) 0 = Some leftPath ->
  nth_error (Polyline.paths rightOffset) 0 = Some rightPath ->
  buildRowPolygon centerline leftWidth rightWidth
  = Ok (Polygon.mk
          [map Some leftPath ++ map Some (rev rightPath) ++ [nth_error leftPath 0]]
          (Polyline.spatialReference centerline)).
Proof.
  intros Hl Hr Hlp Hrp. unfold buildRowPolygon, item, bind.
  rewrite Hl, Hr, Hlp. cbv beta iota. rewrite Hrp. reflexivity.
Qed.

Lemma stitched_length (leftPath rightPath : Path) :
  List.length
    (map Some leftPath ++ map Some (rev rightPath) ++ [nth_error leftPath 0])
  = (List.length leftPath + List.length rightPath + 1)%nat.
Proof.
  rewrite !length_app, !length_map, length_rev. simpl. lia.
Qed.

Lemma stitched_closed (leftPath rightPath : Path) :
  leftPath <> [] ->
  let ring :=
    map Some leftPath ++ map Some (rev rightPath) ++ [nth_error leftPath 0] in
  hd None ring = last ring None /\ hd None ring <> None.
Proof.
  intros Hne ring. unfold ring.
  rewrite app_assoc, last_last.
  destruct leftPath as [|p tl]; [contradiction|].
  simpl. split; [reflexivity | discriminate].
Qed.

Lemma dropRepeats_repeatedStart :
  dropRepeats [(0, 0); (0, 0); (0, 100)] = [(0, 0); (0, 100)].
Proof.
  simpl. unfold samePoint. simpl.
  repeat (destruct (Req_dec_T _ _); try lra). reflexivity.
Qed.

(** C4, as stated, fails in its count and in its closure.  Over an engine
    that drops the repeated vertex of the centerline (0,0), (0,0), (0,100),
    both offsets succeed with two points each and the ring, closed, has 5
    entries, not 7.  Over an engine whose first offset of the centerline
    (0,0), (0,100) comes back with a path that holds no point, both offsets
    succeed and the ring starts at a point of the other side and ends in no
    point at all. *)
Lemma ring_count_and_closure_fail :
  ((2 <= vertexCount repeatedStart)%nat
   /\ @offset simplifyingEngine repeatedStart 10 "meters" "miter" <> None
   /\ @offset simplifyingEngine repeatedStart (- 10) "meters" "miter" <> None
   /\ exists polygon : Polygon.t,
        @buildRowPolygon simplifyingEngine repeatedStart 10 10 = Ok polygon
        /\ (exists ring : list (option Point),
              Polygon.rings polygon = [ring]
              /\ hd None ring = last ring None
              /\ List.length ring = 5%nat)
        /\ ~ closedRowRing (vertexCount repeatedStart) polygon)
  /\ ((2 <= vertexCount straightLine)%nat
      /\ @offset collapsedSideEngine straightLine 10 "meters" "miter" <> None
      /\ @offset collapsedSideEngine straightLine (- 10) "meters" "miter" <> None
      /\ exists polygon : Polygon.t,
           @buildRowPolygon collapsedSideEngine straightLine 10 10 = Ok polygon
           /\ (exists ring : list (option Point),
                 Polygon.rings polygon = [ring]
                 /\ hd None ring = Some (0 + - 10, 100)
                 /\ last ring None = None)
           /\ ~ closedRowRing (vertexCount straightLine) polygon).
Proof.
  split.
  - assert (Hoff : forall d : R,
               @offset simplifyingEngine repeatedStart d "meters" "miter"
               = Some (Polyline.mk [translate d [(0, 0); (0, 100)]] 3857%Z)).
    { intros d. unfold repeatedStart.
      change (@offset simplifyingEngine) with (planarOffset dropRepeats).
      unfold planarOffset. cbn [Polyline.paths Polyline.spatialReference].
      rewrite dropRepeats_repeatedStart. reflexivity. }
    split; [unfold vertexCount, repeatedStart; simpl; lia|].
    split; [rewrite Hoff; discriminate|]. split; [rewrite Hoff; discriminate|].
    eexists. split.
    + eapply (@buildRowPolygon_stitch simplifyingEngine); try apply Hoff; reflexivity.
    + split.
      * eexists. split; [reflexivity|]. split; reflexivity.
      * intros (ring & Hring & _ & Hlen). simpl in Hring.
        injection Hring as <-.
        unfold vertexCount, repeatedStart in Hlen. simpl in Hlen. lia.
  - assert (Hleft : @offset collapsedSideEngine straightLine 10 "meters" "miter"
                    = Some (Polyline.mk [[]] 3857%Z)).
    { cbn. destruct (Rlt_dec 0 10) as [_|Hn]; [reflexivity | lra]. }
    assert (Hright : @offset collapsedSideEngine straightLine (- 10) "meters" "miter"
                     = Some (Polyline.mk [translate (- 10) [(0, 0); (0, 100)]] 3857%Z)).
    { cbn. destruct (Rlt_dec 0 (- 10)) as [Hn|_]; [lra | reflexivity]. }
    split; [unfold vertexCount, straightLine; simpl; lia|].
    split; [rewrite Hleft; discriminate|]. split; [rewrite Hright; discriminate|].
    eexists. split.
    + eapply (@buildRowPolygon_stitch collapsedSideEngine);
        [exact Hleft | exact Hright | reflexivity | reflexivity].
    + split.
      * eexists. split; [reflexivity|]. split; reflexivity.
      * intros (ring & Hring & Hends & _). simpl in Hring.
        injection Hring as <-. simpl in Hends. discriminate Hends.
Qed.

Lemma rev_nil_iff {A : Type} (l : list A) : rev l = [] <-> l = [].
Proof.
  split; intros Hl; [|subst; reflexivity].
  rewrite <- (rev_involutive l), Hl. reflexivity.
Qed.

Lemma stitched_closed_iff (leftPath rightPath : Path) :
  let ring :=
    map Some leftPath ++ map Some (rev rightPath) ++ [nth_error leftPath 0] in
  hd None ring = last ring None <-> (leftPath <> [] \/ rightPath = []).
Proof.
  cbv zeta. rewrite app_assoc, last_last.
  destruct leftPath as [|p tl]; simpl.
  - destruct (rev rightPath) as [|q rest] eqn:Hrev; simpl.
    + apply (proj1 (rev_nil_iff rightPath)) in Hrev. split; [intros _; right; exact Hrev | reflexivity].
    + split; [discriminate|].
      intros [Hl | Hr]; [contradiction|].
      subst rightPath. discriminate Hrev.
  - split; [intros _; left; discriminate | reflexivity].
Qed.

(** C4, amended: for a centerline of n vertices (n >= 2 or not), when both
    offsets succeed with a first path each, buildRowPolygon returns a
    polygon with the spatial reference of the centerline and a single ring.  The ring
    has as many entries as the two offset paths together, plus one, which
    is 2n+1 exactly when the two paths have 2n points together (so when
    each has n).  Its first and last entries are identical unless the left
    path is empty and the right one is not; when the left path has a first
    point, that point is both.  So the ring is closed with 2n+1 entries
    exactly when the paths have 2n points together and the left one is not
    empty or the right one is. *)
Theorem buildRowPolygon_closed_ring `{GeometryEngine}
    (centerline leftOffset rightOffset : Polyline.t) (leftWidth rightWidth : R)
    (leftPath rightPath : Path) :
  offset centerline leftWidth "meters" "miter" = Some leftOffset ->
  offset centerline (- rightWidth) "meters" "miter" = Some rightOffset ->
  nth_error (Polyline.paths leftOffset) 0 = Some leftPath ->
  nth_error (Polyline.paths rightOffset) 0 = Some rightPath ->
  exists (polygon : Polygon.t) (ring : list (option Point)),
    buildRowPolygon centerline leftWidth rightWidth = Ok polygon
    /\ Polygon.spatialReference polygon = Polyline.spatialReference centerline
    /\ Polygon.rings polygon = [ring]
    /\ List.length ring = (List.length leftPath + List.length rightPath + 1)%nat
    /\ (List.length ring = (2 * vertexCount centerline + 1)%nat
        <-> (List.length leftPath + List.length rightPath
             = 2 * vertexCount centerline)%nat)
    /\ (hd None ring = last ring None <-> (leftPath <> [] \/ rightPath = []))
    /\ (forall p : Point,
          nth_error leftPath 0 = Some p ->
          hd None ring = Some p /\ last ring None = Some p)
    /\ (closedRowRing (vertexCount centerline) polygon
        <-> ((List.length leftPath + List.length rightPath
              = 2 * vertexCount centerline)%nat
             /\ (leftPath <> [] \/ rightPath = []))).
Proof.
  intros Hl Hr Hlp Hrp.
  eexists. eexists. split; [eapply buildRowPolygon_stitch; eassumption|].
  split; [reflexivity|]. split; [reflexivity|].
  pose proof (stitched_length leftPath rightPath) as Hlen.
  pose proof (stitched_closed_iff leftPath rightPath) as Hclosed. cbv zeta in Hclosed.
  set (ring := map Some leftPath ++ map Some (rev rightPath) ++ [nth_error leftPath 0])
    in *.
  split; [exact Hlen|]. split; [rewrite Hlen; lia|]. split; [exact Hclosed|].
  split.
  - intros p Hp. destruct leftPath as [|q tl]; [discriminate Hp|].
    simpl in Hp. injection Hp as ->.
    assert (Hne : p :: tl <> []) by discriminate.
    destruct (stitched_closed (p :: tl) rightPath Hne) as [Heq _].
    cbv zeta in Heq. fold ring in Heq.
    split; [reflexivity | rewrite <- Heq; reflexivity].
  - unfold closedRowRing. cbn [Polygon.rings]. split.
    + intros (ring' & Hring & Hhd & Hcount). injection Hring as <-.
      split; [rewrite Hlen in Hcount; lia | apply Hclosed; exact Hhd].
    + intros [Hcount Hends]. exists ring.
      split; [reflexivity|]. split; [apply Hclosed; exact Hends | rewrite Hlen; lia].
Qed.

Lemma buildRowPolygon_closed_ring_witness :
  @offset planarEngine straightLine 10 "meters" "miter"
  = Some (Polyline.mk [[(0 + 10, 0); (0 + 10, 100)]] 3857%Z)
  /\ @offset planarEngine straightLine (- 10) "meters" "miter"
     = Some (Polyline.mk [[(0 + - 10, 0); (0 + - 10, 100)]] 3857%Z)
  /\ exists (polygon : Polygon.t) (ring : list (option Point)),
       @buildRowPolygon planarEngine straightLine 10 10 = Ok polygon
       /\ Polygon.rings polygon = [ring]
       /\ List.length ring = 5%nat
       /\ hd None ring = Some (0 + 10, 0)
       /\ last ring None = Some (0 + 10, 0)
       /\ closedRowRing (vertexCount straightLine) polygon.
Proof.
  split; [reflexivity|]. split; [reflexivity|].
  destruct (@buildRowPolygon_closed_ring planarEngine straightLine
              (Polyline.mk [[(0 + 10, 0); (0 + 10, 100)]] 3857%Z)
              (Polyline.mk [[(0 + - 10, 0); (0 + - 10, 100)]] 3857%Z)
              10 10 [(0 + 10, 0); (0 + 10, 100)] [(0 + - 10, 0); (0 + - 10, 100)]
              eq_refl eq_refl eq_refl eq_refl)
    as (polygon & ring & Hbuild & _ & Hrings & Hlen & _ & _ & Hends & Hclosed).
  exists polygon, ring. split; [exact Hbuild|]. split; [exact Hrings|].
  split; [exact Hlen|].
  destruct (Hends (0 + 10, 0) eq_refl) as [Hhd Hlast].
  split; [exact Hhd|]. split; [exact Hlast|].
  apply Hclosed. split; [reflexivity | left; discriminate].
Defined.

(** ** Failure of buildRowPolygon *)

(** C8, as stated, fails over an engine whose offset answers a polyline
    with no path: both offsets succeed, yet no polygon comes back: the
    spread of the missing path raises a TypeError. *)
Lemma empty_offset_raises :
  @offset emptyOffsetEngine straightLine 10 "meters" "miter" <> None
  /\ @offset emptyOffsetEngine straightLine (- 10) "meters" "miter" <> None
  /\ @buildRowPolygon emptyOffsetEngine straightLine 10 10 = Throw TypeError
  /\ ~ exists polygon : Polygon.t,
         @buildRowPolygon emptyOffsetEngine straightLine 10 10 = Ok polygon.
Proof.
  assert (Hb : @buildRowPolygon emptyOffsetEngine straightLine 10 10 = Throw TypeError)
    by reflexivity.
  repeat split; try discriminate; try exact Hb.
  intros [polygon Hp]. rewrite Hb in Hp. discriminate Hp.
Qed.

(** C8, amended: buildRowPolygon raises the offset-failure error exactly
    when one of the two offset computations yields no result; when both
    yield a line that has a first path it returns a polygon and does not
    raise. *)
Theorem buildRowPolygon_failure `{GeometryEngine}
    (centerline : Polyline.t) (leftWidth rightWidth : R) :
  (buildRowPolygon centerline leftWidth rightWidth = Throw OffsetFailure
   <-> (offset centerline leftWidth "meters" "miter" = None
        \/ offset centerline (- rightWidth) "meters" "miter" = None))
  /\ forall leftOffset rightOffset : Polyline.t,
       offset centerline leftWidth "meters" "miter" = Some leftOffset ->
       offset centerline (- rightWidth) "meters" "miter" = Some rightOffset ->
       Polyline.paths leftOffset <> [] ->
       Polyline.paths rightOffset <> [] ->
       exists polygon : Polygon.t,
         buildRowPolygon centerline leftWidth rightWidth = Ok polygon.
Proof.
  split.
  - unfold buildRowPolygon, item.
    destruct (offset centerline leftWidth "meters" "miter") as [l|];
      destruct (offset centerline (- rightWidth) "meters" "miter") as [r|];
      try (split; [intros _; auto | reflexivity]).
    split; [|intros [Hx | Hx]; discriminate Hx].
    unfold OffsetFailure, bind.
    destruct (nth_error (Polyline.paths l) 0); [|intros Hx; discriminate Hx].
    destruct (nth_error (Polyline.paths r) 0); intros Hx; discriminate Hx.
  - intros l r Hl Hr Hlp Hrp.
    destruct (Polyline.paths l) as [|lp ltl] eqn:El; [contradiction|].
    destruct (Polyline.paths r) as [|rp rtl] eqn:Er; [contradiction|].
    eexists. eapply buildRowPolygon_stitch; try eassumption.
    + rewrite El. reflexivity.
    + rewrite Er. reflexivity.
Qed.


(** * Further properties of the geometry utilities *)

(** ** The records, one by one *)

Lemma records_lookup `{GeometryEngine} (polyline : Polyline.t) (path : Path)
    (i : nat) (v : VertexInfo.t) :
  nth_error (map (recordAt polyline path) (seq 0 (List.length path))) i = Some v ->
  exists current : Point,
    nth_error path i = Some current
    /\ v = VertexInfo.mk i (fst current) (snd current)
             (bearingAt path i current) (decimalToDMS (bearingAt path i current))
             (fst (bendAt path i current)) (snd (bendAt path i current))
             (outgoing polyline path i) (reached polyline path i).
Proof.
  intros Hv. apply nth_error_map_seq in Hv. destruct Hv as [Hi ->].
  destruct (nth_error path i) as [current|] eqn:Hc.
  - exists current. split; [reflexivity|]. apply recordAt_fields. exact Hc.
  - apply nth_error_None in Hc. lia.
Qed.

(** X1: The result has one record per vertex, in the order of the path: the
    record at position i has index i and the coordinates of vertex i, and
    its DMS string is the formatting of its own bearing. *)
Theorem records_follow_vertices `{GeometryEngine}
    (polyline : Polyline.t) (path : Path) :
  nth_error (Polyline.paths polyline) 0 = Some path ->
  (2 <= List.length path)%nat ->
  exists vertices : list VertexInfo.t,
    computeVertexAnalytics polyline = Ok vertices
    /\ List.length vertices = List.length path
    /\ forall (i : nat) (v : VertexInfo.t),
         nth_error vertices i = Some v ->
         exists current : Point,
           nth_error path i = Some current
           /\ VertexInfo.index v = i
           /\ VertexInfo.x v = fst current
           /\ VertexInfo.y v = snd current
           /\ VertexInfo.bearingDMS v = decimalToDMS (VertexInfo.bearing v).
Proof.
  intros Hp Hn. eexists.
  split; [apply computeVertexAnalytics_records; eassumption|].
  split; [rewrite length_map, length_seq; reflexivity|].
  intros i v Hv. apply records_lookup in Hv. destruct Hv as (current & Hc & ->).
  exists current. simpl. repeat split. exact Hc.
Qed.

Lemma records_follow_vertices_witness :
  nth_error (Polyline.paths rightAngle) 0 = Some [(0, 0); (0, 100); (100, 100)]
  /\ (2 <= List.length [(0, 0); (0, 100); (100, 100)])%nat
  /\ exists vertices : list VertexInfo.t,
       @computeVertexAnalytics planarEngine rightAngle = Ok vertices
       /\ List.length vertices = List.length [(0, 0); (0, 100); (100, 100)]
       /\ forall (i : nat) (v : VertexInfo.t),
            nth_error vertices i = Some v ->
            exists current : Point,
              nth_error [(0, 0); (0, 100); (100, 100)] i = Some current
              /\ VertexInfo.index v = i
              /\ VertexInfo.x v = fst current
              /\ VertexInfo.y v = snd current
              /\ VertexInfo.bearingDMS v = decimalToDMS (VertexInfo.bearing v).
Proof.
  split; [reflexivity|]. split; [simpl; lia|].
  apply (@records_follow_vertices planarEngine rightAngle
           [(0, 0); (0, 100); (100, 100)]); [reflexivity | simpl; lia].
Defined.

Lemma bendAt_first (path : Path) (current : Point) :
  bendAt path 0 current = (0, "Start"%string).
Proof. reflexivity. Qed.

Lemma bendAt_last (path : Path) (i : nat) (current : Point) :
  (0 < i)%nat -> (i + 1)%nat = List.length path ->
  bendAt path i current = (0, "End"%string).
Proof.
  intros Hi Hlast. unfold bendAt. rewrite (nextOf_None path i) by lia.
  replace (i =? 0)%nat with false by (symmetry; apply Nat.eqb_neq; lia).
  replace (i =? List.length path - 1)%nat with true
    by (symmetry; apply Nat.eqb_eq; lia).
  destruct (prevOf path i); reflexivity.
Qed.

Lemma bendAt_interior (path : Path) (i : nat) (current : Point) :
  (0 < i)%nat -> (i + 1 < List.length path)%nat ->
  exists prev next : Point,
    nth_error path (i - 1) = Some prev
    /\ nth_error path (i + 1) = Some next
    /\ bendAt path i current = bendOf prev current next.
Proof.
  intros Hi Hint. unfold bendAt, prevOf. rewrite (nextOf_Some path i) by lia.
  replace (0 <? i)%nat with true by (symmetry; apply Nat.ltb_lt; lia).
  destruct (nth_error path (i - 1)) as [prev|] eqn:Hprev.
  2:{ apply nth_error_None in Hprev. lia. }
  destruct (nth_error path (i + 1)) as [next|] eqn:Hnext.
  2:{ apply nth_error_None in Hnext. lia. }
  exists prev, next. repeat split.
Qed.

Lemma bendOf_direction (prev current next : Point) :
  snd (bendOf prev current next) = "Straight"%string
  \/ snd (bendOf prev current next) = "Left"%string
  \/ snd (bendOf prev current next) = "Right"%string.
Proof.
  unfold bendOf. cbv zeta. simpl snd.
  destruct (Rlt_dec 1 _); [|left; reflexivity].
  destruct (Rlt_dec 0 _); [right; left | right; right]; reflexivity.
Qed.

(** X2: For any centerline of at least 2 vertices the first record is labelled
    Start and the last one End, both with bend angle 0. *)
Theorem endpoints_start_end `{GeometryEngine}
    (polyline : Polyline.t) (path : Path) :
  nth_error (Polyline.paths polyline) 0 = Some path ->
  (2 <= List.length path)%nat ->
  exists (vertices : list VertexInfo.t) (first last : VertexInfo.t),
    computeVertexAnalytics polyline = Ok vertices
    /\ nth_error vertices 0 = Some first
    /\ nth_error vertices (List.length path - 1) = Some last
    /\ VertexInfo.bendDirection first = "Start"%string
    /\ VertexInfo.bendAngle first = 0
    /\ VertexInfo.bendDirection last = "End"%string
    /\ VertexInfo.bendAngle last = 0.
Proof.
  intros Hp Hn.
  set (n := List.length path) in *.
  exists (map (recordAt polyline path) (seq 0 n)).
  exists (recordAt polyline path 0), (recordAt polyline path (n - 1)).
  split; [apply computeVertexAnalytics_records; assumption|].
  assert (Hat : forall i, (i < n)%nat ->
             nth_error (map (recordAt polyline path) (seq 0 n)) i
             = Some (recordAt polyline path i)).
  { intros i Hi. rewrite nth_error_map, nth_error_seq.
    replace (i <? n)%nat with true by (symmetry; apply Nat.ltb_lt; exact Hi).
    reflexivity. }
  split; [apply Hat; lia|]. split; [apply Hat; lia|].
  destruct (nth_error path 0) as [a|] eqn:Ha.
  2:{ apply nth_error_None in Ha. fold n in Ha. lia. }
  destruct (nth_error path (n - 1)) as [z|] eqn:Hz.
  2:{ apply nth_error_None in Hz. fold n in Hz. lia. }
  rewrite (recordAt_fields polyline path 0 a Ha).
  rewrite (recordAt_fields polyline path (n - 1) z Hz).
  rewrite bendAt_first. rewrite bendAt_last by (fold n; lia).
  simpl. repeat split.
Qed.

Lemma endpoints_start_end_witness :
  nth_error (Polyline.paths rightAngle) 0 = Some [(0, 0); (0, 100); (100, 100)]
  /\ (2 <= List.length [(0, 0); (0, 100); (100, 100)])%nat
  /\ exists (vertices : list VertexInfo.t) (first last : VertexInfo.t),
       @computeVertexAnalytics planarEngine rightAngle = Ok vertices
       /\ nth_error vertices 0 = Some first
       /\ nth_error vertices (List.length [(0, 0); (0, 100); (100, 100)] - 1)
          = Some last
       /\ VertexInfo.bendDirection first = "Start"%string
       /\ VertexInfo.bendAngle first = 0
       /\ VertexInfo.bendDirection last = "End"%string
       /\ VertexInfo.bendAngle last = 0.
Proof.
  split; [reflexivity|]. split; [simpl; lia|].
  apply (@endpoints_start_end planarEngine rightAngle
           [(0, 0); (0, 100); (100, 100)]); [reflexivity | simpl; lia].
Defined.

(** X3: The placeholder direction N/A never reaches a record: Start labels
    index 0 and nothing else, End labels the last index and nothing else,
    and every record in between is Straight, Left or Right. *)
Theorem directions_by_position `{GeometryEngine}
    (polyline : Polyline.t) (path : Path) :
  nth_error (Polyline.paths polyline) 0 = Some path ->
  (2 <= List.length path)%nat ->
  exists vertices : list VertexInfo.t,
    computeVertexAnalytics polyline = Ok vertices
    /\ forall (i : nat) (v : VertexInfo.t),
         nth_error vertices i = Some v ->
         VertexInfo.bendDirection v <> "N/A"%string
         /\ (VertexInfo.bendDirection v = "Start"%string <-> i = 0%nat)
         /\ (VertexInfo.bendDirection v = "End"%string
             <-> (i + 1)%nat = List.length path)
         /\ ((0 < i)%nat -> (i + 1 < List.length path)%nat ->
             VertexInfo.bendDirection v = "Straight"%string
             \/ VertexInfo.bendDirection v = "Left"%string
             \/ VertexInfo.bendDirection v = "Right"%string).
Proof.
  intros Hp Hn. eexists.
  split; [apply computeVertexAnalytics_records; eassumption|].
  intros i v Hv. pose proof Hv as Hin. apply nth_error_map_seq in Hin.
  destruct Hin as [Hi _].
  apply records_lookup in Hv. destruct Hv as (current & Hc & ->). simpl.
  destruct (Nat.eq_dec i 0) as [-> | Hi0].
  - rewrite bendAt_first. simpl.
    repeat split; intros; try congruence; try reflexivity; exfalso; lia.
  - destruct (Nat.eq_dec (i + 1) (List.length path)) as [Hl | Hl].
    + rewrite bendAt_last by lia. simpl.
      repeat split; intros; try congruence; try reflexivity; exfalso; lia.
    + destruct (bendAt_interior path i current) as (prev & next & _ & _ & ->);
        try lia.
      pose proof (bendOf_direction prev current next) as Hd.
      unfold not.
      repeat split; intros; try exact Hd; try (exfalso; lia);
        match goal with
        | Hx : snd _ = _ |- _ =>
            rewrite Hx in Hd; destruct Hd as [Hd | [Hd | Hd]]; discriminate Hd
        end.
Qed.

Lemma directions_by_position_witness :
  nth_error (Polyline.paths rightAngle) 0 = Some [(0, 0); (0, 100); (100, 100)]
  /\ (2 <= List.length [(0, 0); (0, 100); (100, 100)])%nat
  /\ exists vertices : list VertexInfo.t,
       @computeVertexAnalytics planarEngine rightAngle = Ok vertices
       /\ forall (i : nat) (v : VertexInfo.t),
            nth_error vertices i = Some v ->
            VertexInfo.bendDirection v <> "N/A"%string
            /\ (VertexInfo.bendDirection v = "Start"%string <-> i = 0%nat)
            /\ (VertexInfo.bendDirection v = "End"%string
                <-> (i + 1)%nat = List.length [(0, 0); (0, 100); (100, 100)])
            /\ ((0 < i)%nat ->
                (i + 1 < List.length [(0, 0); (0, 100); (100, 100)])%nat ->
                VertexInfo.bendDirection v = "Straight"%string
                \/ VertexInfo.bendDirection v = "Left"%string
                \/ VertexInfo.bendDirection v = "Right"%string).
Proof.
  split; [reflexivity|]. split; [simpl; lia|].
  apply (@directions_by_position planarEngine rightAngle
           [(0, 0); (0, 100); (100, 100)]); [reflexivity | simpl; lia].
Defined.

(** ** Segment lengths *)

(** X4: for every vertex that has a next one there is a record, and its
    segment length is what the engine measures, in meters, for the
    two-point line from the vertex to the next one in the spatial reference
    of the centerline; the last vertex has a record too, with segment
    length 0. *)
Theorem segment_lengths_measured `{GeometryEngine}
    (polyline : Polyline.t) (path : Path) :
  nth_error (Polyline.paths polyline) 0 = Some path ->
  (2 <= List.length path)%nat ->
  exists vertices : list VertexInfo.t,
    computeVertexAnalytics polyline = Ok vertices
    /\ List.length vertices = List.length path
    /\ (forall (i : nat) (current next : Point),
          nth_error path i = Some current ->
          nth_error path (i + 1) = Some next ->
          exists v : VertexInfo.t,
            nth_error vertices i = Some v
            /\ VertexInfo.segmentLength v
               = geodesicLength
                   (OfPolyline
                      (Polyline.mk [[current; next]]
                         (Polyline.spatialReference polyline)))
                   "meters")
    /\ (exists last : VertexInfo.t,
          nth_error vertices (List.length path - 1) = Some last
          /\ VertexInfo.segmentLength last = 0).
Proof.
  intros Hp Hn. eexists.
  split; [apply computeVertexAnalytics_records; eassumption|].
  split; [rewrite length_map, length_seq; reflexivity|].
  assert (Hat : forall i, (i < List.length path)%nat ->
             nth_error (map (recordAt polyline path) (seq 0 (List.length path))) i
             = Some (recordAt polyline path i)).
  { intros i Hi. rewrite nth_error_map, nth_error_seq.
    replace (i <? List.length path)%nat with true
      by (symmetry; apply Nat.ltb_lt; exact Hi).
    reflexivity. }
  split.
  - intros i current next Hc Hnext.
    assert (Hi1 : (i + 1 < List.length path)%nat)
      by (apply nth_error_Some; congruence).
    exists (recordAt polyline path i). split; [apply Hat; lia|].
    rewrite (recordAt_fields polyline path i current Hc). simpl.
    unfold outgoing. rewrite Hc, (nextOf_Some path i Hi1), Hnext. reflexivity.
  - exists (recordAt polyline path (List.length path - 1)).
    split; [apply Hat; lia|].
    destruct (nth_error path (List.length path - 1)) as [z|] eqn:Hz.
    2:{ apply nth_error_None in Hz. lia. }
    rewrite (recordAt_fields polyline path _ z Hz). simpl.
    unfold outgoing. rewrite Hz, (nextOf_None path) by lia. reflexivity.
Qed.

Lemma segment_lengths_measured_witness :
  nth_error (Polyline.paths rightAngle) 0 = Some [(0, 0); (0, 100); (100, 100)]
  /\ (2 <= List.length [(0, 0); (0, 100); (100, 100)])%nat
  /\ exists vertices : list VertexInfo.t,
       @computeVertexAnalytics planarEngine rightAngle = Ok vertices
       /\ List.length vertices = List.length [(0, 0); (0, 100); (100, 100)]
       /\ (forall (i : nat) (current next : Point),
             nth_error [(0, 0); (0, 100); (100, 100)] i = Some current ->
             nth_error [(0, 0); (0, 100); (100, 100)] (i + 1) = Some next ->
             exists v : VertexInfo.t,
               nth_error vertices i = Some v
               /\ VertexInfo.segmentLength v
                  = @geodesicLength planarEngine
                      (OfPolyline
                         (Polyline.mk [[current; next]]
                            (Polyline.spatialReference rightAngle)))
                      "meters")
       /\ (exists last : VertexInfo.t,
             nth_error vertices (List.length [(0, 0); (0, 100); (100, 100)] - 1)
             = Some last
             /\ VertexInfo.segmentLength last = 0).
Proof.
  split; [reflexivity|]. split; [simpl; lia|].
  apply (@segment_lengths_measured planarEngine rightAngle
           [(0, 0); (0, 100); (100, 100)]); [reflexivity | simpl; lia].
Defined.

(** ** Which part of the polyline is read *)

Lemma vertexAt_reference `{GeometryEngine} (p q : Polyline.t) (path : Path)
    (i : nat) (current : Point) (c : R) :
  Polyline.spatialReference p = Polyline.spatialReference q ->
  vertexAt p path i current c = vertexAt q path i current c.
Proof. intros Hsr. unfold vertexAt. rewrite Hsr. reflexivity. Qed.

Lemma loop_reference `{GeometryEngine} (p q : Polyline.t) (path : Path) (n : nat) :
  Polyline.spatialReference p = Polyline.spatialReference q ->
  forall (i : nat) (c : R) (vertices : list VertexInfo.t),
    loop p path n i c vertices = loop q path n i c vertices.
Proof.
  intros Hsr. induction n as [|n IH]; intros i c vertices; simpl; [reflexivity|].
  unfold bind. destruct (item path i) as [current|e]; [|reflexivity].
  rewrite (vertexAt_reference p q path i current c Hsr).
  destruct (vertexAt q path i current c) as [v c']. apply IH.
Qed.

(** X5: Only the first path and the spatial reference of the polyline are
    read: two polylines that agree on them get the same records, whatever
    their other paths. *)
Theorem only_first_path_analysed `{GeometryEngine} (p q : Polyline.t) :
  nth_error (Polyline.paths p) 0 = nth_error (Polyline.paths q) 0 ->
  Polyline.spatialReference p = Polyline.spatialReference q ->
  computeVertexAnalytics p = computeVertexAnalytics q.
Proof.
  intros Hpath Hsr. unfold computeVertexAnalytics. rewrite Hpath.
  destruct (nth_error (Polyline.paths q) 0) as [path|]; [|reflexivity].
  destruct (List.length path <? 2)%nat; [reflexivity|].
  apply loop_reference. exact Hsr.
Qed.

Lemma only_first_path_analysed_witness :
  nth_error (Polyline.paths rightAngle) 0
  = nth_error
      (Polyline.paths
         (Polyline.mk [[(0, 0); (0, 100); (100, 100)]; [(5, 5); (6, 6)]] 3857%Z)) 0
  /\ Polyline.spatialReference rightAngle
     = Polyline.spatialReference
         (Polyline.mk [[(0, 0); (0, 100); (100, 100)]; [(5, 5); (6, 6)]] 3857%Z)
  /\ @computeVertexAnalytics planarEngine rightAngle
     = @computeVertexAnalytics planarEngine
         (Polyline.mk [[(0, 0); (0, 100); (100, 100)]; [(5, 5); (6, 6)]] 3857%Z).
Proof.
  split; [reflexivity|]. split; [reflexivity|].
  apply (@only_first_path_analysed planarEngine); reflexivity.
Defined.

(** ** Bearings as compass directions *)

Lemma bearingOf_west (dx : R) : dx < 0 -> bearingOf dx 0 = 270.
Proof.
  intros Hdx. rewrite bearingOf_cases. unfold degreesOf, Js.Math_atan2.
  destruct (Rlt_dec 0 0); [lra|]. destruct (Rlt_dec 0 dx); [lra|].
  destruct (Rlt_dec dx 0); [|contradiction].
  replace (- (PI / 2) * 180 / Js.Math_PI) with (-90)
    by (unfold Js.Math_PI; field; apply PI_neq0).
  decide_R.
Qed.

Lemma bearingOf_nowhere : bearingOf 0 0 = 0.
Proof.
  rewrite bearingOf_cases. unfold degreesOf, Js.Math_atan2.
  destruct (Rlt_dec 0 0); [lra|].
  replace (0 * 180 / Js.Math_PI) with 0
    by (unfold Js.Math_PI; field; apply PI_neq0).
  decide_R.
Qed.

(** X6: Bearings are compass bearings: a step of any positive length d due
    north has bearing 0, due east 90, due south 180 and due west 270; a
    step that does not move has bearing 0. *)
Theorem cardinal_bearings (d : R) :
  0 < d ->
  bearingOf 0 d = 0
  /\ bearingOf d 0 = 90
  /\ bearingOf 0 (- d) = 180
  /\ bearingOf (- d) 0 = 270
  /\ bearingOf 0 0 = 0.
Proof.
  intros Hd. split; [apply bearingOf_north; lra|].
  split; [apply bearingOf_east; lra|].
  split; [apply bearingOf_south; lra|].
  split; [apply bearingOf_west; lra | apply bearingOf_nowhere].
Qed.

Lemma cardinal_bearings_witness :
  0 < 100
  /\ bearingOf 0 100 = 0
  /\ bearingOf 100 0 = 90
  /\ bearingOf 0 (- 100) = 180
  /\ bearingOf (- 100) 0 = 270
  /\ bearingOf 0 0 = 0.
Proof.
  split; [lra|]. apply (cardinal_bearings 100). lra.
Defined.

(** ** Going straight on *)

Lemma Math_atan2_scale (k y x : R) :
  0 < k -> Js.Math_atan2 (k * y) (k * x) = Js.Math_atan2 y x.
Proof.
  intros Hk. unfold Js.Math_atan2.
  assert (Hq : x <> 0 -> k * y / (k * x) = y / x) by (intros; field; lra).
  destruct (Rlt_dec 0 x) as [Hx | Hx].
  - destruct (Rlt_dec 0 (k * x)); [|nra]. rewrite Hq by lra. reflexivity.
  - destruct (Rlt_dec 0 (k * x)); [nra|].
    destruct (Rlt_dec x 0) as [Hx' | Hx'].
    + destruct (Rlt_dec (k * x) 0); [|nra]. rewrite Hq by lra.
      destruct (Rle_dec 0 y); destruct (Rle_dec 0 (k * y)); try nra; reflexivity.
    + destruct (Rlt_dec (k * x) 0); [nra|].
      destruct (Rlt_dec 0 y); destruct (Rlt_dec 0 (k * y)); try nra;
        try reflexivity.
      destruct (Rlt_dec y 0); destruct (Rlt_dec (k * y) 0); try nra; reflexivity.
Qed.

Lemma bearingOf_scale (k dx dy : R) :
  0 < k -> bearingOf (k * dx) (k * dy) = bearingOf dx dy.
Proof. intros Hk. unfold bearingOf. rewrite Math_atan2_scale by exact Hk. reflexivity. Qed.

(** X9: A vertex whose outgoing step is a positive multiple of its incoming
    step (the line goes straight on) is labelled Straight with bend
    angle 0. *)
Theorem straight_on_is_straight `{GeometryEngine}
    (polyline : Polyline.t) (path : Path)
    (i : nat) (prev current next : Point) (k : R) :
  nth_error (Polyline.paths polyline) 0 = Some path ->
  nth_error path i = Some prev ->
  nth_error path (i + 1) = Some current ->
  nth_error path (i + 2) = Some next ->
  0 < k ->
  fst next - fst current = k * (fst current - fst prev) ->
  snd next - snd current = k * (snd current - snd prev) ->
  exists (vertices : list VertexInfo.t) (v : VertexInfo.t),
    computeVertexAnalytics polyline = Ok vertices
    /\ nth_error vertices (i + 1) = Some v
    /\ VertexInfo.bendDirection v = "Straight"%string
    /\ VertexInfo.bendAngle v = 0.
Proof.
  intros Hp Hprev Hcur Hnext Hk Hdx Hdy.
  assert (Hlen : (i + 2 < List.length path)%nat)
    by (apply nth_error_Some; congruence).
  eexists. exists (recordAt polyline path (i + 1)).
  split; [apply computeVertexAnalytics_records; [eassumption | lia]|].
  split.
  { rewrite nth_error_map, nth_error_seq.
    replace (i + 1 <? List.length path)%nat with true
      by (symmetry; apply Nat.ltb_lt; lia).
    reflexivity. }
  destruct (interior_record polyline path i prev current next Hprev Hcur Hnext)
    as [-> ->].
  unfold bendOf. cbv zeta. simpl fst. simpl snd.
  rewrite Hdx, Hdy, bearingOf_scale by exact Hk.
  replace (bearingOf (fst current - fst prev) (snd current - snd prev)
           - bearingOf (fst current - fst prev) (snd current - snd prev))
    with 0 by ring.
  rewrite foldDeflection_small by lra.
  unfold Js.Math_abs. rewrite Rabs_R0.
  destruct (Rlt_dec 1 0); [lra|]. split; reflexivity.
Qed.

Lemma straight_on_is_straight_witness :
  exists (vertices : list VertexInfo.t) (v : VertexInfo.t),
    @computeVertexAnalytics planarEngine
      (Polyline.mk [[(0, 0); (10, 20); (40, 80)]] 3857%Z) = Ok vertices
    /\ nth_error vertices (0 + 1) = Some v
    /\ VertexInfo.bendDirection v = "Straight"%string
    /\ VertexInfo.bendAngle v = 0.
Proof.
  apply (@straight_on_is_straight planarEngine
           (Polyline.mk [[(0, 0); (10, 20); (40, 80)]] 3857%Z)
           [(0, 0); (10, 20); (40, 80)] 0 (0, 0) (10, 20) (40, 80) 3);
    try reflexivity; simpl; lra.
Defined.

(** ** Degrees, minutes and seconds of the bearings *)

(** X11: In the records of a centerline the DMS string reads d, m and s with d
    in 0..359 and m, s in 0..59, and d + m/60 + s/3600 is the bearing of
    the record cut down to a whole second of arc. *)
Theorem analytics_dms_in_range `{GeometryEngine}
    (polyline : Polyline.t) (path : Path) :
  nth_error (Polyline.paths polyline) 0 = Some path ->
  (2 <= List.length path)%nat ->
  exists vertices : list VertexInfo.t,
    computeVertexAnalytics polyline = Ok vertices
    /\ forall (i : nat) (v : VertexInfo.t),
         nth_error vertices i = Some v ->
         exists d m s : Z,
           VertexInfo.bearingDMS v
           = (Js.toString d ++ "Â° " ++ Js.toString m ++ "' " ++ Js.toString s
                ++ dquote)%string
           /\ (0 <= d <= 359)%Z /\ (0 <= m <= 59)%Z /\ (0 <= s <= 59)%Z
           /\ IZR d + IZR m / 60 + IZR s / 3600 <= VertexInfo.bearing v
           /\ VertexInfo.bearing v < IZR d + IZR m / 60 + (IZR s + 1) / 3600.
Proof.
  intros Hp Hn. eexists.
  split; [apply computeVertexAnalytics_records; eassumption|].
  intros i v Hv. apply records_lookup in Hv. destruct Hv as (current & Hc & ->).
  simpl VertexInfo.bearingDMS. simpl VertexInfo.bearing.
  set (bearing := bearingAt path i current).
  assert (Hb : 0 <= bearing < 360).
  { unfold bearing, bearingAt.
    destruct (nextOf path i); [apply bearingOf_range | lra]. }
  destruct (dms_truncates bearing) as (Hd & Hm & Hs & Hlo & Hhi).
  exists (dmsDegrees bearing), (dmsMinutes bearing), (dmsSeconds bearing).
  split; [apply decimalToDMS_fields|].
  split; [|repeat split; try lia; lra].
  split.
  - apply Zfloor_lub. lra.
  - assert (dmsDegrees bearing < 360)%Z by (apply lt_IZR; lra). lia.
Qed.

Lemma analytics_dms_in_range_witness :
  nth_error (Polyline.paths rightAngle) 0 = Some [(0, 0); (0, 100); (100, 100)]
  /\ (2 <= List.length [(0, 0); (0, 100); (100, 100)])%nat
  /\ exists vertices : list VertexInfo.t,
       @computeVertexAnalytics planarEngine rightAngle = Ok vertices
       /\ forall (i : nat) (v : VertexInfo.t),
            nth_error vertices i = Some v ->
            exists d m s : Z,
              VertexInfo.bearingDMS v
              = (Js.toString d ++ "Â° " ++ Js.toString m ++ "' " ++ Js.toString s
                   ++ dquote)%string
              /\ (0 <= d <= 359)%Z /\ (0 <= m <= 59)%Z /\ (0 <= s <= 59)%Z
              /\ IZR d + IZR m / 60 + IZR s / 3600 <= VertexInfo.bearing v
              /\ VertexInfo.bearing v < IZR d + IZR m / 60 + (IZR s + 1) / 3600.
Proof.
  split; [reflexivity|]. split; [simpl; lia|].
  apply (@analytics_dms_in_range planarEngine rightAngle
           [(0, 0); (0, 100); (100, 100)]); [reflexivity | simpl; lia].
Defined.

(** ** Layout of the ring and kinds of failure *)

(** X12: When both offsets come back with a first path, the polygon has the
    spatial reference of the centerline and exactly one ring: the left
    path in its order, then the right path from its last point to its
    first, then the first point of the left path once more. *)
Theorem row_ring_layout `{GeometryEngine}
    (centerline leftOffset rightOffset : Polyline.t) (leftWidth rightWidth : R)
    (leftPath rightPath : Path) :
  offset centerline leftWidth "meters" "miter" = Some leftOffset ->
  offset centerline (- rightWidth) "meters" "miter" = Some rightOffset ->
  nth_error (Polyline.paths leftOffset) 0 = Some leftPath ->
  nth_error (Polyline.paths rightOffset) 0 = Some rightPath ->
  exists ring : list (option Point),
    buildRowPolygon centerline leftWidth rightWidth
    = Ok (Polygon.mk [ring] (Polyline.spatialReference centerline))
    /\ List.length ring = (List.length leftPath + List.length rightPath + 1)%nat
    /\ (forall i : nat, (i < List.length leftPath)%nat ->
          nth_error ring i = Some (nth_error leftPath i))
    /\ (forall j : nat, (j < List.length rightPath)%nat ->
          nth_error ring (List.length leftPath + j)
          = Some (nth_error rightPath (List.length rightPath - 1 - j)))
    /\ nth_error ring (List.length leftPath + List.length rightPath)
       = Some (nth_error leftPath 0).
Proof.
  intros Hl Hr Hlp Hrp. eexists.
  split; [eapply buildRowPolygon_stitch; eassumption|].
  split; [apply stitched_length|].
  assert (Hsome : forall (l : Path) (i : nat), (i < List.length l)%nat ->
             nth_error (map Some l) i = Some (nth_error l i)).
  { intros l i Hi. rewrite nth_error_map.
    destruct (nth_error l i) eqn:E; [reflexivity|].
    apply nth_error_None in E. lia. }
  split; [|split].
  - intros i Hi. rewrite nth_error_app1 by (rewrite length_map; exact Hi).
    apply Hsome. exact Hi.
  - intros j Hj. rewrite nth_error_app2 by (rewrite length_map; lia).
    rewrite length_map. replace (List.length leftPath + j - List.length leftPath)%nat
      with j by lia.
    rewrite nth_error_app1 by (rewrite length_map, length_rev; exact Hj).
    rewrite Hsome by (rewrite length_rev; exact Hj).
    f_equal. rewrite nth_error_rev.
    replace (j <? List.length rightPath)%nat with true
      by (symmetry; apply Nat.ltb_lt; exact Hj).
    f_equal. lia.
  - rewrite nth_error_app2 by (rewrite length_map; lia).
    rewrite length_map.
    replace (List.length leftPath + List.length rightPath - List.length leftPath)%nat
      with (List.length rightPath) by lia.
    rewrite nth_error_app2 by (rewrite length_map, length_rev; lia).
    rewrite length_map, length_rev, Nat.sub_diag. reflexivity.
Qed.

Lemma row_ring_layout_witness :
  exists ring : list (option Point),
    @buildRowPolygon planarEngine straightLine 10 10
    = Ok (Polygon.mk [ring] (Polyline.spatialReference straightLine))
    /\ List.length ring = 5%nat
    /\ nth_error ring 4 = Some (Some (0 + 10, 0)).
Proof.
  destruct (@row_ring_layout planarEngine straightLine
              (Polyline.mk [[(0 + 10, 0); (0 + 10, 100)]] 3857%Z)
              (Polyline.mk [[(0 + - 10, 0); (0 + - 10, 100)]] 3857%Z)
              10 10 [(0 + 10, 0); (0 + 10, 100)] [(0 + - 10, 0); (0 + - 10, 100)])
    as (ring & Hbuild & Hlen & _ & _ & Hclose); try reflexivity.
  exists ring. split; [exact Hbuild|]. split; [exact Hlen | exact Hclose].
Defined.

(** X13: buildRowPolygon raises nothing but the offset-failure error and a
    TypeError, and the TypeError exactly when both offsets came back but
    one of the two lines has no path. *)
Theorem buildRowPolygon_errors `{GeometryEngine}
    (centerline : Polyline.t) (leftWidth rightWidth : R) :
  (forall e : JsError,
      buildRowPolygon centerline leftWidth rightWidth = Throw e ->
      e = OffsetFailure \/ e = TypeError)
  /\ (buildRowPolygon centerline leftWidth rightWidth = Throw TypeError
      <-> exists leftOffset rightOffset : Polyline.t,
            offset centerline leftWidth "meters" "miter" = Some leftOffset
            /\ offset centerline (- rightWidth) "meters" "miter" = Some rightOffset
            /\ (Polyline.paths leftOffset = [] \/ Polyline.paths rightOffset = [])).
Proof.
  unfold buildRowPolygon, item, bind, OffsetFailure.
  destruct (offset centerline leftWidth "meters" "miter") as [l|];
    destruct (offset centerline (- rightWidth) "meters" "miter") as [r|].
  2-4: split; [intros e He; injection He as <-; left; reflexivity|];
       split; [intros He; discriminate He
              | intros (l' & r' & Hl & Hr & _); discriminate].
  destruct (Polyline.paths l) as [|lp ltl] eqn:El; simpl.
  - split; [intros e He; injection He as <-; right; reflexivity|].
    split; [intros _; exists l, r; repeat split; left; exact El | reflexivity].
  - destruct (Polyline.paths r) as [|rp rtl] eqn:Er; simpl.
    + split; [intros e He; injection He as <-; right; reflexivity|].
      split; [intros _; exists l, r; repeat split; right; exact Er | reflexivity].
    + split; [intros e He; discriminate He|].
      split; [intros He; discriminate He|].
      intros (l' & r' & Hl & Hr & [Hx | Hx]).
      * injection Hl as <-. rewrite El in Hx. discriminate Hx.
      * injection Hr as <-. rewrite Er in Hx. discriminate Hx.
Qed.

(** * The CSV of the vertex analytics *)

(** ** Characters of the fields *)

Lemma hasChar_app (c : ascii) (s t : string) :
  hasChar c (s ++ t) = hasChar c s || hasChar c t.
Proof.
  induction s as [|a s IH]; simpl; [reflexivity|].
  rewrite IH. apply orb_assoc.
Qed.

Lemma allChars_app (P : ascii -> bool) (s t : string) :
  allChars P (s ++ t) = allChars P s && allChars P t.
Proof.
  induction s as [|a s IH]; simpl; [reflexivity|].
  rewrite IH. apply andb_assoc.
Qed.

Lemma allChars_hasChar (P : ascii -> bool) (c : ascii) (s : string) :
  allChars P s = true -> P c = false -> hasChar c s = false.
Proof.
  intros Hs Hc. induction s as [|a s IH]; simpl in *; [reflexivity|].
  apply andb_prop in Hs. destruct Hs as [Ha Hs].
  rewrite (IH Hs), orb_false_r.
  destruct (Ascii.eqb_spec a c) as [-> | _]; [congruence | reflexivity].
Qed.

Lemma numeric_uint (d : Decimal.uint) :
  allChars numeric (NilEmpty.string_of_uint d) = true.
Proof. induction d; simpl; trivial. Qed.

Lemma numeric_toString (n : Z) : allChars numeric (Js.toString n) = true.
Proof.
  unfold Js.toString, NilZero.string_of_int, NilZero.string_of_uint.
  destruct (Z.to_int n) as [d | d]; destruct d; simpl;
    try reflexivity; apply numeric_uint.
Qed.

Lemma numeric_zeros (k : nat) : allChars numeric (zeros k) = true.
Proof. induction k; simpl; trivial. Qed.

Lemma numeric_substring (s : string) :
  allChars numeric s = true ->
  forall n m : nat, allChars numeric (substring n m s) = true.
Proof.
  induction s as [|a s IH]; intros Hs n m.
  - destruct n, m; reflexivity.
  - simpl in Hs. apply andb_prop in Hs. destruct Hs as [Ha Hs].
    destruct n as [|n]; destruct m as [|m]; simpl; trivial.
    + rewrite Ha. apply IH. exact Hs.
    + apply IH. exact Hs.
    + apply IH. exact Hs.
Qed.

Lemma numeric_toFixed (x : R) (f : nat) : allChars numeric (toFixed x f) = true.
Proof.
  unfold toFixed. cbv zeta.
  set (n := Zfloor _). pose proof (numeric_toString n) as Hn.
  rewrite allChars_app. apply andb_true_intro. split.
  - destruct (Rlt_dec x 0); reflexivity.
  - destruct (f =? 0)%nat; [exact Hn|].
    set (m := if (String.length (Js.toString n) <=? f)%nat then _ else _).
    assert (Hm : allChars numeric m = true).
    { unfold m. destruct (String.length (Js.toString n) <=? f)%nat; [|exact Hn].
      rewrite allChars_app, numeric_zeros, Hn. reflexivity. }
    rewrite !allChars_app, !numeric_substring by exact Hm. reflexivity.
Qed.

Lemma toFixed_examples :
  toFixed (455 / 10) 2 = "45.50"%string
  /\ toFixed 0 6 = "0.000000"%string
  /\ toFixed (5 / 1000) 2 = "0.01"%string
  /\ toFixed (- (4 / 1000)) 2 = "-0.00"%string
  /\ toFixed (1234567 / 1000) 2 = "1234.57"%string.
Proof.
  repeat split; unfold toFixed; cbv zeta.
  - destruct (Rlt_dec (455 / 10) 0); [lra|].
    replace (Zfloor (455 / 10 * 10 ^ 2 + / 2)) with 4550%Z
      by (symmetry; apply Zfloor_eq; simpl; lra).
    reflexivity.
  - destruct (Rlt_dec 0 0); [lra|].
    replace (Zfloor (0 * 10 ^ 6 + / 2)) with 0%Z
      by (symmetry; apply Zfloor_eq; simpl; lra).
    reflexivity.
  - destruct (Rlt_dec (5 / 1000) 0); [lra|].
    replace (Zfloor (5 / 1000 * 10 ^ 2 + / 2)) with 1%Z
      by (symmetry; apply Zfloor_eq; simpl; lra).
    reflexivity.
  - destruct (Rlt_dec (- (4 / 1000)) 0); [|lra].
    replace (Zfloor (- - (4 / 1000) * 10 ^ 2 + / 2)) with 0%Z
      by (symmetry; apply Zfloor_eq; simpl; lra).
    reflexivity.
  - destruct (Rlt_dec (1234567 / 1000) 0); [lra|].
    replace (Zfloor (1234567 / 1000 * 10 ^ 2 + / 2)) with 123457%Z
      by (symmetry; apply Zfloor_eq; simpl; lra).
    reflexivity.
Qed.

Lemma plain_numeric (s : string) : allChars numeric s = true -> plainField s.
Proof.
  intros Hs. split; apply (allChars_hasChar numeric); trivial.
Qed.

Lemma plain_app (s t : string) : plainField s -> plainField t -> plainField (s ++ t).
Proof.
  intros [Hs1 Hs2] [Ht1 Ht2]. split; rewrite hasChar_app.
  - rewrite Hs1, Ht1. reflexivity.
  - rewrite Hs2, Ht2. reflexivity.
Qed.

Lemma plain_decimalToDMS (decimal : R) : plainField (decimalToDMS decimal).
Proof.
  rewrite decimalToDMS_fields.
  repeat apply plain_app;
    try (apply plain_numeric; apply numeric_toString);
    split; reflexivity.
Qed.

Lemma plain_bendAt (path : Path) (i : nat) (current : Point) :
  plainField (snd (bendAt path i current)).
Proof.
  unfold bendAt.
  destruct (prevOf path i) as [prev|]; [destruct (nextOf path i) as [next|]|].
  - destruct (bendOf_direction prev current next) as [-> | [-> | ->]];
      split; reflexivity.
  - destruct (i =? 0)%nat; [|destruct (i =? List.length path - 1)%nat];
      split; reflexivity.
  - destruct (i =? 0)%nat; [|destruct (i =? List.length path - 1)%nat];
      split; reflexivity.
Qed.

(** ** Splitting a joined text *)

Lemma splitOn_plain (sep : ascii) (s : string) :
  hasChar sep s = false -> splitOn sep s = [s].
Proof.
  induction s as [|a s IH]; simpl; intros Hs; [reflexivity|].
  apply orb_false_elim in Hs. destruct Hs as [Ha Hs].
  rewrite Ha, (IH Hs). reflexivity.
Qed.

Lemma splitOn_app (sep : ascii) (s t : string) :
  hasChar sep s = false ->
  splitOn sep (s ++ String sep t) = s :: splitOn sep t.
Proof.
  induction s as [|a s IH]; simpl; intros Hs.
  - rewrite Ascii.eqb_refl. reflexivity.
  - apply orb_false_elim in Hs. destruct Hs as [Ha Hs].
    rewrite Ha, (IH Hs). reflexivity.
Qed.

Lemma splitOn_join (sep : ascii) (pieces : list string) :
  pieces <> [] ->
  Forall (fun s => hasChar sep s = false) pieces ->
  splitOn sep (join (String sep EmptyString) pieces) = pieces.
Proof.
  unfold join. induction pieces as [|s rest IH]; intros Hne Hall; [contradiction|].
  inversion Hall as [|? ? Hs Hrest]; subst.
  destruct rest as [|t rest'].
  - simpl. apply splitOn_plain. exact Hs.
  - change (String.concat (String sep EmptyString) (s :: t :: rest'))
      with (s ++ String sep (String.concat (String sep EmptyString) (t :: rest')))%string.
    rewrite splitOn_app by exact Hs. f_equal.
    apply IH; [discriminate | exact Hrest].
Qed.

Lemma hasChar_join (c : ascii) (sep : string) (pieces : list string) :
  hasChar c sep = false ->
  Forall (fun s => hasChar c s = false) pieces ->
  hasChar c (join sep pieces) = false.
Proof.
  unfold join. intros Hsep Hall.
  induction pieces as [|s rest IH]; [reflexivity|].
  inversion Hall as [|? ? Hs Hrest]; subst.
  destruct rest as [|t rest']; [exact Hs|].
  change (String.concat sep (s :: t :: rest'))
    with (s ++ sep ++ String.concat sep (t :: rest'))%string.
  rewrite !hasChar_app, Hs, Hsep, (IH Hrest). reflexivity.
Qed.

(** ** The text reads back *)

Lemma plain_headers : Forall plainField csvHeaders.
Proof. unfold csvHeaders. repeat constructor. Qed.

Lemma plain_csvRow (v : VertexInfo.t) :
  plainField (VertexInfo.bearingDMS v) ->
  plainField (VertexInfo.bendDirection v) ->
  Forall plainField (csvRow v).
Proof.
  intros Hdms Hdir. unfold csvRow.
  repeat constructor; try exact (proj1 Hdms); try exact (proj2 Hdms);
    try exact (proj1 Hdir); try exact (proj2 Hdir);
    try (apply plain_numeric; apply numeric_toFixed);
    try (apply plain_numeric; apply numeric_toString).
Qed.

Lemma csv_line_reads_back (fields : list string) :
  fields <> [] ->
  Forall plainField fields ->
  splitOn "," (join "," fields) = fields
  /\ hasChar "010" (join "," fields) = false.
Proof.
  intros Hne Hall. split.
  - apply (splitOn_join "," fields Hne).
    eapply Forall_impl; [|exact Hall]. intros s [Hs _]. exact Hs.
  - apply hasChar_join; [reflexivity|].
    eapply Forall_impl; [|exact Hall]. intros s [_ Hs]. exact Hs.
Qed.

Lemma csv_text_reads_back (table : list (list string)) :
  table <> [] ->
  Forall (fun fields => fields <> [] /\ Forall plainField fields) table ->
  map (splitOn ",") (splitOn "010" (join newline (map (join ",") table))) = table.
Proof.
  intros Hne Hall.
  assert (Hlines : splitOn "010" (join newline (map (join ",") table))
                   = map (join ",") table).
  { apply (splitOn_join "010").
    - destruct table; [contradiction | discriminate].
    - apply Forall_map. eapply Forall_impl; [|exact Hall].
      intros fields [Hf Hp]. apply csv_line_reads_back; assumption. }
  rewrite Hlines, map_map.
  rewrite <- (map_id table) at 2. apply map_ext_Forall.
  eapply Forall_impl; [|exact Hall].
  intros fields [Hf Hp]. apply csv_line_reads_back; assumption.
Qed.

Lemma exportVerticesCSV_table (vertices : list VertexInfo.t) (name : string) :
  content (exportVerticesCSV vertices name)
  = join newline (map (join ",") (csvHeaders :: map csvRow vertices)).
Proof.
  unfold exportVerticesCSV, downloadText. cbv zeta. cbn [content map].
  reflexivity.
Qed.

(** X14: The CSV text has a header line and one line per record, in the order
    of the records, and nothing else; provided the DMS string and the
    direction of each record hold no comma and no line feed, cutting the
    text at the line feeds and each line at the commas gives back the nine
    headers and the nine entries of each record.  The text is handed over
    under the given file name as text/csv. *)
Theorem csv_reads_back (vertices : list VertexInfo.t) (name : string) :
  (forall v : VertexInfo.t, In v vertices ->
     plainField (VertexInfo.bearingDMS v) /\ plainField (VertexInfo.bendDirection v)) ->
  let download := exportVerticesCSV vertices name in
  filename download = name
  /\ mimeType download = "text/csv"%string
  /\ map (splitOn ",") (splitOn "010" (content download))
     = csvHeaders :: map csvRow vertices
  /\ List.length (splitOn "010" (content download)) = S (List.length vertices)
  /\ Forall (fun line => List.length (splitOn "," line) = 9%nat)
       (splitOn "010" (content download)).
Proof.
  intros Hplain download.
  assert (Hread : map (splitOn ",") (splitOn "010" (content download))
                  = csvHeaders :: map csvRow vertices).
  { unfold download. rewrite exportVerticesCSV_table.
    apply csv_text_reads_back; [discriminate|].
    constructor.
    - split; [discriminate | apply plain_headers].
    - apply Forall_map. apply Forall_forall. intros v Hv.
      destruct (Hplain v Hv) as [Hdms Hdir].
      split; [discriminate | apply plain_csvRow; assumption]. }
  split; [reflexivity|]. split; [reflexivity|]. split; [exact Hread|].
  split.
  - rewrite <- (length_map (splitOn ",")), Hread. simpl.
    rewrite length_map. reflexivity.
  - apply Forall_forall. intros line Hline.
    apply (in_map (splitOn ",")) in Hline. rewrite Hread in Hline.
    destruct Hline as [<- | Hrow]; [reflexivity|].
    apply in_map_iff in Hrow. destruct Hrow as (v & <- & _). reflexivity.
Qed.

Lemma csv_reads_back_witness :
  let vertices :=
    [VertexInfo.mk 0 0 0 0 (decimalToDMS 0) 0 "Start" 100 0;
     VertexInfo.mk 1 0 100 0 (decimalToDMS 0) 0 "End" 0 100] in
  let download := exportVerticesCSV vertices "A1_vertices_1.csv" in
  filename download = "A1_vertices_1.csv"%string
  /\ mimeType download = "text/csv"%string
  /\ map (splitOn ",") (splitOn "010" (content download))
     = csvHeaders :: map csvRow vertices
  /\ List.length (splitOn "010" (content download)) = S (List.length vertices)
  /\ Forall (fun line => List.length (splitOn "," line) = 9%nat)
       (splitOn "010" (content download)).
Proof.
  cbv zeta.
  apply (csv_reads_back
           [VertexInfo.mk 0 0 0 0 (decimalToDMS 0) 0 "Start" 100 0;
            VertexInfo.mk 1 0 100 0 (decimalToDMS 0) 0 "End" 0 100]
           "A1_vertices_1.csv").
  intros v [<- | [<- | []]]; (split; [apply plain_decimalToDMS | split; reflexivity]).
Defined.

(** X15: The CSV of the records computed for any polyline has one header line
    and one line per record, each of nine comma-separated entries, and
    reads back into the headers and the entries of the records. *)
Theorem analytics_csv_reads_back `{GeometryEngine}
    (polyline : Polyline.t) (name : string) :
  exists vertices : list VertexInfo.t,
    computeVertexAnalytics polyline = Ok vertices
    /\ List.length vertices
       = (if (vertexCount polyline <? 2)%nat then 0%nat else vertexCount polyline)
    /\ map (splitOn ",")
         (splitOn "010" (content (exportVerticesCSV vertices name)))
       = csvHeaders :: map csvRow vertices
    /\ List.length (splitOn "010" (content (exportVerticesCSV vertices name)))
       = S (List.length vertices)
    /\ Forall (fun line => List.length (splitOn "," line) = 9%nat)
         (splitOn "010" (content (exportVerticesCSV vertices name))).
Proof.
  assert (Hgen : forall vertices : list VertexInfo.t,
             (forall v, In v vertices ->
                plainField (VertexInfo.bearingDMS v)
                /\ plainField (VertexInfo.bendDirection v)) ->
             map (splitOn ",")
               (splitOn "010" (content (exportVerticesCSV vertices name)))
             = csvHeaders :: map csvRow vertices
             /\ List.length (splitOn "010" (content (exportVerticesCSV vertices name)))
                = S (List.length vertices)
             /\ Forall (fun line => List.length (splitOn "," line) = 9%nat)
                  (splitOn "010" (content (exportVerticesCSV vertices name)))).
  { intros vertices Hplain.
    assert (Hread : map (splitOn ",")
                      (splitOn "010" (content (exportVerticesCSV vertices name)))
                    = csvHeaders :: map csvRow vertices).
    { rewrite exportVerticesCSV_table.
      apply csv_text_reads_back; [discriminate|].
      constructor.
      - split; [discriminate | apply plain_headers].
      - apply Forall_map. apply Forall_forall. intros v Hv.
        destruct (Hplain v Hv) as [Hdms Hdir].
        split; [discriminate | apply plain_csvRow; assumption]. }
    split; [exact Hread|]. split.
    - rewrite <- (length_map (splitOn ",")), Hread. simpl.
      rewrite length_map. reflexivity.
    - apply Forall_forall. intros line Hline.
      apply (in_map (splitOn ",")) in Hline. rewrite Hread in Hline.
      destruct Hline as [<- | Hrow]; [reflexivity|].
      apply in_map_iff in Hrow. destruct Hrow as (v & <- & _). reflexivity. }
  unfold vertexCount.
  destruct (nth_error (Polyline.paths polyline) 0) as [path|] eqn:Hp.
  - destruct (le_lt_dec 2 (List.length path)) as [Hn | Hn].
    + eexists. split; [apply computeVertexAnalytics_records; eassumption|].
      split.
      { rewrite length_map, length_seq.
        replace (List.length path <? 2)%nat with false
          by (symmetry; apply Nat.ltb_ge; exact Hn).
        reflexivity. }
      apply Hgen. intros v Hv. apply In_nth_error in Hv. destruct Hv as [i Hv].
      apply records_lookup in Hv. destruct Hv as (current & _ & ->). simpl.
      split; [apply plain_decimalToDMS | apply plain_bendAt].
    + exists []. split.
      { apply computeVertexAnalytics_few. unfold vertexCount. rewrite Hp. exact Hn. }
      split.
      { replace (List.length path <? 2)%nat with true
          by (symmetry; apply Nat.ltb_lt; exact Hn).
        reflexivity. }
      apply Hgen. intros v Hv. destruct Hv.
  - exists []. split.
    { apply computeVertexAnalytics_few. unfold vertexCount. rewrite Hp. lia. }
    split; [reflexivity|]. apply Hgen. intros v Hv. destruct Hv.
Qed.

(** * The tables of the widget *)

(** ** Numbering *)

Lemma sorted_snoc (l : list nat) (n : nat) :
  StronglySorted lt l -> Forall (fun i => (i < n)%nat) l ->
  StronglySorted lt (l ++ [n]).
Proof.
  induction l as [|a l IH]; intros Hs Hb; simpl.
  - constructor; constructor.
  - apply StronglySorted_inv in Hs. destruct Hs as [Hs Ha].
    inversion Hb as [|? ? Han Hb']; subst.
    constructor; [apply IH; assumption|].
    apply Forall_app. split; [exact Ha | constructor; [exact Han | constructor]].
Qed.

Lemma forall_map_filter {A : Type} (g : A -> nat) (f : A -> bool)
    (P : nat -> Prop) (l : list A) :
  Forall P (map g l) -> Forall P (map g (filter f l)).
Proof.
  induction l as [|a l IH]; simpl; intros Hl; [constructor|].
  inversion Hl as [|? ? Ha Hl']; subst.
  destruct (f a); simpl; [constructor; [exact Ha | apply IH; exact Hl'] | apply IH; exact Hl'].
Qed.

Lemma sorted_map_filter {A : Type} (g : A -> nat) (f : A -> bool) (l : list A) :
  StronglySorted lt (map g l) -> StronglySorted lt (map g (filter f l)).
Proof.
  induction l as [|a l IH]; simpl; intros Hs; [constructor|].
  apply StronglySorted_inv in Hs. destruct Hs as [Hs Ha].
  destruct (f a); simpl; [|apply IH; exact Hs].
  constructor; [apply IH; exact Hs | apply forall_map_filter; exact Ha].
Qed.

Lemma sorted_NoDup (l : list nat) : StronglySorted lt l -> NoDup l.
Proof.
  induction l as [|a l IH]; intros Hs; [constructor|].
  apply StronglySorted_inv in Hs. destruct Hs as [Hs Ha].
  constructor; [|apply IH; exact Hs].
  intros Hin. rewrite Forall_forall in Ha. specialize (Ha a Hin). lia.
Qed.

Lemma numbered_same_tables (w w' : Widget.t) :
  State.lines (Widget.state w') = State.lines (Widget.state w) ->
  State.polygons (Widget.state w') = State.polygons (Widget.state w) ->
  State.nextLineId (Widget.state w') = State.nextLineId (Widget.state w) ->
  State.nextPolygonId (Widget.state w') = State.nextPolygonId (Widget.state w) ->
  numbered w -> numbered w'.
Proof.
  unfold numbered, lineIds, polygonIds. intros -> -> -> ->. trivial.
Qed.

Section Numbering.
Context `{GeometryEngine}.
Variable typeErrorText : string.

Lemma findLine_In (lineId : nat) (w : Widget.t) (line : LineRecord.t) :
  findLine lineId w = Some line ->
  In line (State.lines (Widget.state w)) /\ LineRecord.id line = lineId.
Proof.
  unfold findLine. intros Hf. apply find_some in Hf. destruct Hf as [Hin Hid].
  split; [exact Hin | apply Nat.eqb_eq; exact Hid].
Qed.

Lemma numbered_buildROW (lineId : nat) (now : string) (w : Widget.t) :
  numbered w -> numbered (buildROW typeErrorText lineId now w).
Proof.
  intros Hw. unfold buildROW.
  destruct (findLine lineId w) as [line|] eqn:Hf; [|exact Hw].
  destruct (buildRowPolygon _ _ _) as [polygon | e].
  2:{ revert Hw. apply numbered_same_tables; reflexivity. }
  apply findLine_In in Hf. destruct Hf as [Hin Hid].
  destruct Hw as (Hl1 & Hp1 & Hls & Hlb & Hps & Hpb & Hpl).
  unfold numbered, lineIds, polygonIds in *. cbn.
  split; [exact Hl1|]. split; [lia|].
  split; [exact Hls|]. split; [exact Hlb|].
  rewrite map_app. cbn.
  split.
  { apply sorted_snoc; [exact Hps|].
    eapply Forall_impl; [|exact Hpb]. intros i Hi. cbn in Hi. lia. }
  split.
  { apply Forall_app. split.
    - eapply Forall_impl; [|exact Hpb]. intros i Hi. cbn in Hi. lia.
    - constructor; [lia | constructor]. }
  apply Forall_app. split; [exact Hpl|].
  constructor; [|constructor]. cbn.
  rewrite Forall_forall in Hlb. apply Hlb. apply in_map. exact Hin.
Qed.

Lemma numbered_addLine (geometry : Polyline.t) (now nowRow : string) (w : Widget.t) :
  numbered w -> numbered (addLine typeErrorText geometry now nowRow w).
Proof.
  intros Hw. unfold addLine. cbv zeta. apply numbered_buildROW.
  destruct Hw as (Hl1 & Hp1 & Hls & Hlb & Hps & Hpb & Hpl).
  unfold numbered, lineIds, polygonIds in *. cbn.
  split; [lia|]. split; [exact Hp1|].
  rewrite map_app. cbn.
  split.
  { apply sorted_snoc; [exact Hls|].
    eapply Forall_impl; [|exact Hlb]. intros i Hi. cbn in Hi. lia. }
  split.
  { apply Forall_app. split.
    - eapply Forall_impl; [|exact Hlb]. intros i Hi. cbn in Hi. lia.
    - constructor; [lia | constructor]. }
  split; [exact Hps|]. split; [exact Hpb|].
  eapply Forall_impl; [|exact Hpl]. intros p Hp. cbn in Hp. lia.
Qed.

Lemma numbered_deleteLine (lineId : nat) (w : Widget.t) :
  numbered w -> numbered (deleteLine lineId w).
Proof.
  intros (Hl1 & Hp1 & Hls & Hlb & Hps & Hpb & Hpl).
  unfold numbered, lineIds, polygonIds, deleteLine in *. cbn.
  split; [exact Hl1|]. split; [exact Hp1|].
  split; [apply sorted_map_filter; exact Hls|].
  split; [apply forall_map_filter; exact Hlb|].
  split; [exact Hps|]. split; [exact Hpb | exact Hpl].
Qed.

Lemma numbered_deletePolygon (polygonId : nat) (w : Widget.t) :
  numbered w -> numbered (deletePolygon polygonId w).
Proof.
  intros (Hl1 & Hp1 & Hls & Hlb & Hps & Hpb & Hpl).
  unfold numbered, lineIds, polygonIds, deletePolygon in *. cbn.
  split; [exact Hl1|]. split; [exact Hp1|].
  split; [exact Hls|]. split; [exact Hlb|].
  split; [apply sorted_map_filter; exact Hps|].
  split; [apply forall_map_filter; exact Hpb|].
  apply Forall_forall. intros p Hp. apply filter_In in Hp. destruct Hp as [Hp _].
  rewrite Forall_forall in Hpl. apply Hpl. exact Hp.
Qed.

Lemma numbered_step (w w' : Widget.t) :
  step typeErrorText w w' -> numbered w -> numbered w'.
Proof.
  intros Hstep Hw. destruct Hstep;
    try (revert Hw; apply numbered_same_tables; reflexivity).
  - unfold handleDrawLine. cbv zeta.
    destruct (String.eqb _ _);
      [|destruct (String.eqb _ _)];
      revert Hw; apply numbered_same_tables; reflexivity.
  - unfold onSketchCreate. destruct (String.eqb _ _); [|exact Hw].
    cbv zeta. apply (numbered_addLine geometry now nowRow) in Hw.
    revert Hw. apply numbered_same_tables; reflexivity.
  - unfold updateRealtimePreview.
    destruct (1 <? List.length vertices)%nat; [|exact Hw]. cbv zeta.
    set (w1 := match buildRowPolygon _ _ _ with Ok _ => _ | Throw _ => _ end).
    assert (H1 : numbered w1).
    { unfold w1. destruct (buildRowPolygon _ _ _);
        revert Hw; apply numbered_same_tables; reflexivity. }
    destruct (String.eqb _ _); [|exact H1].
    assert (H2 : numbered (Widget.with_previewLayer [] w1))
      by (revert H1; apply numbered_same_tables; reflexivity).
    apply (numbered_addLine (Polyline.mk [vertices] viewReference) now nowRow) in H2.
    revert H2. apply numbered_same_tables; reflexivity.
  - apply numbered_deleteLine. exact Hw.
  - apply numbered_deletePolygon. exact Hw.
  - unfold showVertices. destruct (findLine _ _); [|exact Hw].
    destruct (computeVertexAnalytics _); [|exact Hw].
    revert Hw. apply numbered_same_tables; reflexivity.
Qed.

Lemma numbered_initial : numbered initialWidget.
Proof.
  unfold numbered, lineIds, polygonIds, initialWidget. cbn.
  repeat split; try lia; constructor.
Qed.

Lemma reachable_numbered (w : Widget.t) : reachable typeErrorText w -> numbered w.
Proof.
  induction 1 as [|w w' _ IH Hstep]; [apply numbered_initial|].
  apply (numbered_step w w' Hstep IH).
Qed.
End Numbering.

(** X16: Whatever the user and the map do, the ids in the two tables stay
    distinct and increase down the table, every id is at least 1 and below
    the counter that issues the next one, and every polygon names a line id
    that was issued. *)
Theorem tables_stay_numbered `{GeometryEngine}
    (typeErrorText : string) (w : Widget.t) :
  reachable typeErrorText w ->
  NoDup (lineIds w) /\ NoDup (polygonIds w)
  /\ StronglySorted lt (lineIds w) /\ StronglySorted lt (polygonIds w)
  /\ Forall (fun i => (1 <= i < State.nextLineId (Widget.state w))%nat) (lineIds w)
  /\ Forall (fun i => (1 <= i < State.nextPolygonId (Widget.state w))%nat)
       (polygonIds w)
  /\ Forall
       (fun p => (1 <= PolygonRecord.lineId p < State.nextLineId (Widget.state w))%nat)
       (State.polygons (Widget.state w)).
Proof.
  intros Hr. apply reachable_numbered in Hr.
  destruct Hr as (_ & _ & Hls & Hlb & Hps & Hpb & Hpl).
  split; [apply sorted_NoDup; exact Hls|].
  split; [apply sorted_NoDup; exact Hps|].
  repeat split; assumption.
Qed.


Lemma tables_stay_numbered_witness :
  let w :=
    @onSketchCreate planarEngine "not iterable" "complete" straightLine
      "1/1/2026" "1/1/2026" initialWidget in
  NoDup (lineIds w) /\ NoDup (polygonIds w)
  /\ StronglySorted lt (lineIds w) /\ StronglySorted lt (polygonIds w)
  /\ Forall (fun i => (1 <= i < State.nextLineId (Widget.state w))%nat) (lineIds w)
  /\ Forall (fun i => (1 <= i < State.nextPolygonId (Widget.state w))%nat)
       (polygonIds w)
  /\ Forall
       (fun p => (1 <= PolygonRecord.lineId p < State.nextLineId (Widget.state w))%nat)
       (State.polygons (Widget.state w)).
Proof.
  apply (@tables_stay_numbered planarEngine "not iterable").
  eapply reachable_step; [apply reachable_initial | apply step_sketch].
Defined.

(** ** Adding a line *)

Lemma find_snoc_fresh {A : Type} (f : A -> bool) (l : list A) (x : A) :
  (forall a : A, In a l -> f a = false) -> f x = true ->
  find f (l ++ [x]) = Some x.
Proof.
  intros Hl Hx. induction l as [|a l IH]; simpl.
  - rewrite Hx. reflexivity.
  - rewrite (Hl a) by (left; reflexivity).
    apply IH. intros b Hb. apply Hl. right. exact Hb.
Qed.

Lemma fresh_line_id (w : Widget.t) (l : LineRecord.t) :
  numbered w -> In l (State.lines (Widget.state w)) ->
  (LineRecord.id l =? State.nextLineId (Widget.state w))%nat = false.
Proof.
  intros (_ & _ & _ & Hlb & _) Hin. apply Nat.eqb_neq.
  unfold lineIds in Hlb. rewrite Forall_forall in Hlb.
  specialize (Hlb (LineRecord.id l) (in_map _ _ _ Hin)). cbn in Hlb. lia.
Qed.

Lemma addLine_built `{GeometryEngine}
    (typeErrorText : string) (w : Widget.t)
    (geometry : Polyline.t) (now nowRow : string) (polygon : Polygon.t) :
  reachable typeErrorText w ->
  buildRowPolygon geometry (State.leftWidth (Widget.state w))
    (State.rightWidth (Widget.state w)) = Ok polygon ->
  let s := Widget.state w in
  let w' := addLine typeErrorText geometry now nowRow w in
  State.lines (Widget.state w')
  = State.lines s
      ++ [LineRecord.mk (State.nextLineId s) (State.project s) geometry
            (State.leftWidth s) (State.rightWidth s)
            (State.leftWidth s + State.rightWidth s) now]
  /\ State.polygons (Widget.state w')
     = State.polygons s
         ++ [PolygonRecord.mk (State.nextPolygonId s) (State.nextLineId s)
               (State.project s) polygon (calculateArea polygon)
               (calculatePerimeter polygon) nowRow]
  /\ State.nextLineId (Widget.state w') = (State.nextLineId s + 1)%nat
  /\ State.nextPolygonId (Widget.state w') = (State.nextPolygonId s + 1)%nat
  /\ Widget.centerlineLayer w'
     = Widget.centerlineLayer w
         ++ [Graphic.mk (OfPolyline geometry) centerlineSymbol
               (Some (Graphic.mkAttrs (State.nextLineId s) None "centerline"))]
  /\ Widget.rowLayer w'
     = Widget.rowLayer w
         ++ [Graphic.mk (OfPolygon polygon) rowFillSymbol
               (Some (Graphic.mkAttrs (State.nextPolygonId s)
                        (Some (State.nextLineId s)) "row"))]
  /\ Widget.alerts w' = Widget.alerts w.
Proof.
  intros Hr Hbuild s w'. apply reachable_numbered in Hr.
  subst s w'. unfold addLine, buildROW, findLine. cbv zeta. cbn [Widget.state
    Widget.with_state Widget.with_centerlineLayer State.lines State.set_lines
    State.set_nextLineId].
  rewrite find_snoc_fresh.
  2:{ intros l Hl. apply (fresh_line_id w l Hr Hl). }
  2:{ cbn. apply Nat.eqb_refl. }
  cbn [LineRecord.geometry LineRecord.leftWidth LineRecord.rightWidth].
  rewrite Hbuild. cbn. repeat split.
Qed.

(** X17: In a widget reached from the constructor's, adding a line whose ROW
    polygon can be built appends one record to each table: the line gets
    the next line id, the project and widths of the form and their sum as
    total width; the polygon gets the next polygon id, the id and project
    of the line, and the area and perimeter measured on the polygon built
    with the widths of the line.  Both counters advance by one, each layer
    gets one graphic and nothing is alerted. *)
Theorem addLine_records_line_and_row `{GeometryEngine}
    (typeErrorText : string) (w : Widget.t)
    (geometry : Polyline.t) (now nowRow : string) (polygon : Polygon.t) :
  reachable typeErrorText w ->
  buildRowPolygon geometry (State.leftWidth (Widget.state w))
    (State.rightWidth (Widget.state w)) = Ok polygon ->
  let s := Widget.state w in
  let w' := addLine typeErrorText geometry now nowRow w in
  State.lines (Widget.state w')
  = State.lines s
      ++ [LineRecord.mk (State.nextLineId s) (State.project s) geometry
            (State.leftWidth s) (State.rightWidth s)
            (State.leftWidth s + State.rightWidth s) now]
  /\ State.polygons (Widget.state w')
     = State.polygons s
         ++ [PolygonRecord.mk (State.nextPolygonId s) (State.nextLineId s)
               (State.project s) polygon (calculateArea polygon)
               (calculatePerimeter polygon) nowRow]
  /\ State.nextLineId (Widget.state w') = (State.nextLineId s + 1)%nat
  /\ State.nextPolygonId (Widget.state w') = (State.nextPolygonId s + 1)%nat
  /\ Widget.centerlineLayer w'
     = Widget.centerlineLayer w
         ++ [Graphic.mk (OfPolyline geometry) centerlineSymbol
               (Some (Graphic.mkAttrs (State.nextLineId s) None "centerline"))]
  /\ Widget.rowLayer w'
     = Widget.rowLayer w
         ++ [Graphic.mk (OfPolygon polygon) rowFillSymbol
               (Some (Graphic.mkAttrs (State.nextPolygonId s)
                        (Some (State.nextLineId s)) "row"))]
  /\ Widget.alerts w' = Widget.alerts w.
Proof.
  intros Hr Hbuild. exact (addLine_built typeErrorText w geometry now nowRow polygon Hr Hbuild).
Qed.

Lemma addLine_records_line_and_row_witness :
  let s := Widget.state initialWidget in
  let w' :=
    @addLine planarEngine "not iterable" straightLine "1/1/2026" "1/1/2026"
      initialWidget in
  exists polygon : Polygon.t,
    State.polygons (Widget.state w')
    = State.polygons s
        ++ [PolygonRecord.mk (State.nextPolygonId s) (State.nextLineId s)
              (State.project s) polygon (@calculateArea planarEngine polygon)
              (@calculatePerimeter planarEngine polygon) "1/1/2026"]
    /\ State.nextLineId (Widget.state w') = (State.nextLineId s + 1)%nat
    /\ Widget.alerts w' = Widget.alerts initialWidget.
Proof.
  cbv zeta. eexists.
  pose proof (@addLine_records_line_and_row planarEngine "not iterable"
                initialWidget straightLine "1/1/2026" "1/1/2026" _
                (reachable_initial "not iterable") eq_refl) as Hadd.
  cbv zeta in Hadd. destruct Hadd as (_ & Hp & Hn & _ & _ & _ & Ha).
  split; [exact Hp|]. split; [exact Hn | exact Ha].
Defined.

(** X18: In a widget reached from the constructor's, a line whose ROW polygon
    cannot be built is recorded all the same: the line table, the line
    counter and the centerline layer change as for any line, the polygon
    table, its counter and the ROW layer stay as they were, and one alert
    is shown with the message of the error. *)
Theorem addLine_keeps_line_without_row `{GeometryEngine}
    (typeErrorText : string) (w : Widget.t)
    (geometry : Polyline.t) (now nowRow : string) (error : JsError) :
  reachable typeErrorText w ->
  buildRowPolygon geometry (State.leftWidth (Widget.state w))
    (State.rightWidth (Widget.state w)) = Throw error ->
  let s := Widget.state w in
  let w' := addLine typeErrorText geometry now nowRow w in
  State.lines (Widget.state w')
  = State.lines s
      ++ [LineRecord.mk (State.nextLineId s) (State.project s) geometry
            (State.leftWidth s) (State.rightWidth s)
            (State.leftWidth s + State.rightWidth s) now]
  /\ State.nextLineId (Widget.state w') = (State.nextLineId s + 1)%nat
  /\ Widget.centerlineLayer w'
     = Widget.centerlineLayer w
         ++ [Graphic.mk (OfPolyline geometry) centerlineSymbol
               (Some (Graphic.mkAttrs (State.nextLineId s) None "centerline"))]
  /\ State.polygons (Widget.state w') = State.polygons s
  /\ State.nextPolygonId (Widget.state w') = State.nextPolygonId s
  /\ Widget.rowLayer w' = Widget.rowLayer w
  /\ Widget.alerts w'
     = Widget.alerts w
         ++ [("Error creating ROW: " ++ messageOf typeErrorText error)%string].
Proof.
  intros Hr Hbuild s w'. apply reachable_numbered in Hr.
  subst s w'. unfold addLine, buildROW, findLine. cbv zeta. cbn [Widget.state
    Widget.with_state Widget.with_centerlineLayer State.lines State.set_lines
    State.set_nextLineId].
  rewrite find_snoc_fresh.
  2:{ intros l Hl. apply (fresh_line_id w l Hr Hl). }
  2:{ cbn. apply Nat.eqb_refl. }
  cbn [LineRecord.geometry LineRecord.leftWidth LineRecord.rightWidth].
  rewrite Hbuild. cbn. repeat split.
Qed.

Lemma addLine_keeps_line_without_row_witness :
  let w' :=
    @addLine emptyOffsetEngine "not iterable" straightLine "1/1/2026" "1/1/2026"
      initialWidget in
  State.polygons (Widget.state w') = State.polygons (Widget.state initialWidget)
  /\ List.length (State.lines (Widget.state w')) = 1%nat
  /\ Widget.alerts w' = ["Error creating ROW: not iterable"%string].
Proof.
  cbv zeta.
  pose proof (@addLine_keeps_line_without_row emptyOffsetEngine "not iterable"
                initialWidget straightLine "1/1/2026" "1/1/2026" TypeError
                (reachable_initial "not iterable") eq_refl) as Hadd.
  cbv zeta in Hadd. destruct Hadd as (Hl & _ & _ & Hp & _ & _ & Ha).
  split; [exact Hp|]. split; [rewrite Hl; reflexivity | exact Ha].
Defined.

(** ** Deleting *)

Lemma find_filter_other {A : Type} (g : A -> nat) (n m : nat) (l : list A) :
  n <> m ->
  find (fun a => (g a =? m)%nat) (filter (fun a => negb (g a =? n)%nat) l)
  = find (fun a => (g a =? m)%nat) l.
Proof.
  intros Hnm. induction l as [|a l IH]; simpl; [reflexivity|].
  destruct (Nat.eqb_spec (g a) n) as [Hn | Hn]; simpl.
  - replace (g a =? m)%nat with false by (symmetry; apply Nat.eqb_neq; lia).
    exact IH.
  - destruct (g a =? m)%nat; [reflexivity | exact IH].
Qed.

Lemma find_filter_same {A : Type} (g : A -> nat) (n : nat) (l : list A) :
  find (fun a => (g a =? n)%nat) (filter (fun a => negb (g a =? n)%nat) l) = None.
Proof.
  induction l as [|a l IH]; simpl; [reflexivity|].
  destruct (g a =? n)%nat eqn:E; simpl; [exact IH|].
  rewrite E. exact IH.
Qed.

Lemma removeWithId_clean (n : nat) (layer : list Graphic.t) :
  Forall (fun g => hasId n g = false) (removeWithId n layer).
Proof.
  apply Forall_forall. intros g Hg. unfold removeWithId in Hg.
  apply filter_In in Hg. destruct Hg as [_ Hg].
  apply negb_true_iff in Hg. exact Hg.
Qed.

Lemma removeWithId_keeps (n : nat) (layer : list Graphic.t) (g : Graphic.t) :
  In g layer -> hasId n g = false -> In g (removeWithId n layer).
Proof.
  intros Hin Hg. unfold removeWithId. apply filter_In.
  split; [exact Hin | rewrite Hg; reflexivity].
Qed.

(** X19: Deleting a line removes the line with that id, and nothing else, from
    the table, and the graphics with that id, and nothing else, from the
    centerline layer.  The polygon table and the ROW layer are not touched:
    the ROW polygon of the deleted line stays. *)
Theorem deleteLine_only_that_line `{GeometryEngine}
    (typeErrorText : string) (lineId : nat) (w : Widget.t) :
  let w' := deleteLine lineId w in
  findLine lineId w' = None
  /\ (forall other : nat, other <> lineId -> findLine other w' = findLine other w)
  /\ Forall (fun g => hasId lineId g = false) (Widget.centerlineLayer w')
  /\ (forall g : Graphic.t,
        In g (Widget.centerlineLayer w) -> hasId lineId g = false ->
        In g (Widget.centerlineLayer w'))
  /\ State.polygons (Widget.state w') = State.polygons (Widget.state w)
  /\ Widget.rowLayer w' = Widget.rowLayer w
  /\ buildROW typeErrorText lineId "later" w' = w'.
Proof.
  cbv zeta.
  assert (Hnone : findLine lineId (deleteLine lineId w) = None).
  { unfold findLine, deleteLine. cbn.
    apply (find_filter_same LineRecord.id). }
  split; [exact Hnone|].
  split.
  { intros other Hother. unfold findLine, deleteLine. cbn.
    apply (find_filter_other LineRecord.id). congruence. }
  split; [apply removeWithId_clean|].
  split; [intros g; apply removeWithId_keeps|].
  split; [reflexivity|]. split; [reflexivity|].
  unfold buildROW. rewrite Hnone. reflexivity.
Qed.

(** X20: Deleting a polygon removes the polygon with that id, and nothing else,
    from the table, and the graphics with that id, and nothing else, from
    the ROW layer; the line table and the centerline layer are not
    touched. *)
Theorem deletePolygon_only_that_polygon (polygonId : nat) (w : Widget.t) :
  let w' := deletePolygon polygonId w in
  findPolygon polygonId w' = None
  /\ (forall other : nat,
        other <> polygonId -> findPolygon other w' = findPolygon other w)
  /\ Forall (fun g => hasId polygonId g = false) (Widget.rowLayer w')
  /\ (forall g : Graphic.t,
        In g (Widget.rowLayer w) -> hasId polygonId g = false ->
        In g (Widget.rowLayer w'))
  /\ State.lines (Widget.state w') = State.lines (Widget.state w)
  /\ Widget.centerlineLayer w' = Widget.centerlineLayer w.
Proof.
  cbv zeta. split.
  { unfold findPolygon, deletePolygon. cbn.
    apply (find_filter_same PolygonRecord.id). }
  split.
  { intros other Hother. unfold findPolygon, deletePolygon. cbn.
    apply (find_filter_other PolygonRecord.id). congruence. }
  split; [apply removeWithId_clean|].
  split; [intros g; apply removeWithId_keeps|].
  split; reflexivity.
Qed.


Lemma filter_keeps_all {A : Type} (f : A -> bool) (l : list A) :
  (forall a : A, In a l -> f a = true) -> filter f l = l.
Proof.
  intros Hl. induction l as [|a l IH]; simpl; [reflexivity|].
  rewrite (Hl a) by (left; reflexivity). f_equal.
  apply IH. intros b Hb. apply Hl. right. exact Hb.
Qed.

(** X21: Adding a line and then deleting it brings the line table back to what
    it was, but not the polygon table: the polygon built for the line is
    still there, naming the id of a line that is gone, and so is its
    graphic in the ROW layer. *)
Theorem deleted_line_leaves_its_row `{GeometryEngine}
    (typeErrorText : string) (w : Widget.t)
    (geometry : Polyline.t) (now nowRow : string) (polygon : Polygon.t) :
  reachable typeErrorText w ->
  buildRowPolygon geometry (State.leftWidth (Widget.state w))
    (State.rightWidth (Widget.state w)) = Ok polygon ->
  let lineId := State.nextLineId (Widget.state w) in
  let w' := deleteLine lineId (addLine typeErrorText geometry now nowRow w) in
  State.lines (Widget.state w') = State.lines (Widget.state w)
  /\ findLine lineId w' = None
  /\ (exists row : PolygonRecord.t,
        In row (State.polygons (Widget.state w'))
        /\ PolygonRecord.lineId row = lineId
        /\ PolygonRecord.geometry row = polygon)
  /\ (exists g : Graphic.t,
        In g (Widget.rowLayer w')
        /\ Graphic.geometry g = OfPolygon polygon
        /\ option_map Graphic.lineId (Graphic.attributes g) = Some (Some lineId)).
Proof.
  intros Hr Hbuild lineId w'.
  pose proof (addLine_built typeErrorText w geometry now nowRow polygon Hr Hbuild)
    as Hadd.
  cbv zeta in Hadd. destruct Hadd as (Hl & Hp & _ & _ & _ & Hrow & _).
  apply reachable_numbered in Hr.
  subst w' lineId. split.
  { unfold deleteLine. cbn. rewrite Hl, filter_app. cbn.
    rewrite Nat.eqb_refl. cbn. rewrite app_nil_r.
    apply filter_keeps_all. intros l Hin.
    rewrite (fresh_line_id w l Hr Hin). reflexivity. }
  split.
  { unfold findLine, deleteLine. cbn. apply (find_filter_same LineRecord.id). }
  split.
  { eexists. split.
    - unfold deleteLine. cbn. rewrite Hp. apply in_or_app. right. left. reflexivity.
    - split; reflexivity. }
  eexists. split.
  - unfold deleteLine. cbn. rewrite Hrow. apply in_or_app. right. left. reflexivity.
  - split; reflexivity.
Qed.

Lemma deleted_line_leaves_its_row_witness :
  let w' :=
    deleteLine 1
      (@addLine planarEngine "not iterable" straightLine "1/1/2026" "1/1/2026"
         initialWidget) in
  State.lines (Widget.state w') = []
  /\ exists row : PolygonRecord.t,
       In row (State.polygons (Widget.state w')) /\ PolygonRecord.lineId row = 1%nat.
Proof.
  cbv zeta.
  pose proof (@deleted_line_leaves_its_row planarEngine "not iterable"
                initialWidget straightLine "1/1/2026" "1/1/2026" _
                (reachable_initial "not iterable") eq_refl) as Hdel.
  cbv zeta in Hdel. destruct Hdel as (Hl & _ & (row & Hin & Hid & _) & _).
  split; [exact Hl|]. exists row. split; [exact Hin | exact Hid].
Defined.

(** ** The vertex table and its export *)

(** X22: Showing the vertices of a line that is in the table opens the modal
    on the records computed for the geometry of that line, and the export
    then hands over their CSV under the name made of the project of the
    line, the word vertices and the id.  Once the line is deleted the
    records are still in the state but the export does nothing. *)
Theorem vertices_shown_then_exported `{GeometryEngine}
    (lineId : nat) (line : LineRecord.t) (w : Widget.t) :
  findLine lineId w = Some line ->
  exists vertices : list VertexInfo.t,
    computeVertexAnalytics (LineRecord.geometry line) = Ok vertices
    /\ State.verticesModalOpen (Widget.state (showVertices lineId w)) = true
    /\ State.currentVertices (Widget.state (showVertices lineId w)) = vertices
    /\ State.currentLineId (Widget.state (showVertices lineId w)) = Some lineId
    /\ exportVertices (showVertices lineId w)
       = Some
           (exportVerticesCSV vertices
              (LineRecord.project line ++ "_vertices_"
                 ++ Js.toString (Z.of_nat lineId) ++ ".csv"))
    /\ State.currentVertices (Widget.state (deleteLine lineId (showVertices lineId w)))
       = vertices
    /\ exportVertices (deleteLine lineId (showVertices lineId w)) = None.
Proof.
  intros Hf.
  destruct (computeVertexAnalytics_total (LineRecord.geometry line))
    as [vertices Hv].
  exists vertices. split; [exact Hv|].
  unfold showVertices. rewrite Hf, Hv.
  split; [reflexivity|]. split; [reflexivity|]. split; [reflexivity|].
  split.
  { unfold exportVertices. cbn [Widget.state Widget.with_state
      State.currentLineId State.set_currentLineId].
    assert (Hf' : forall s', findLine lineId (Widget.with_state s' w)
                             = find (fun l => (LineRecord.id l =? lineId)%nat)
                                 (State.lines s')) by reflexivity.
    rewrite Hf'. cbn [State.lines State.set_currentLineId State.set_currentVertices
      State.set_verticesModalOpen].
    unfold findLine in Hf. rewrite Hf. reflexivity. }
  split; [reflexivity|].
  unfold exportVertices, deleteLine, findLine.
  cbn [Widget.state Widget.with_state Widget.with_centerlineLayer
    State.currentLineId State.set_currentLineId State.lines State.set_lines
    State.set_currentVertices State.set_verticesModalOpen].
  rewrite (find_filter_same LineRecord.id). reflexivity.
Qed.

Lemma vertices_shown_then_exported_witness :
  let w :=
    @addLine planarEngine "not iterable" straightLine "1/1/2026" "1/1/2026"
      initialWidget in
  exists vertices : list VertexInfo.t,
    State.currentVertices (Widget.state (@showVertices planarEngine 1 w)) = vertices
    /\ exportVertices (deleteLine 1 (@showVertices planarEngine 1 w)) = None.
Proof.
  cbv zeta.
  destruct (@vertices_shown_then_exported planarEngine 1
              (LineRecord.mk 1 EmptyString straightLine 50 50 (50 + 50) "1/1/2026")
              (@addLine planarEngine "not iterable" straightLine "1/1/2026"
                 "1/1/2026" initialWidget) eq_refl)
    as (vertices & _ & _ & Hcur & _ & _ & _ & Hnone).
  exists vertices. split; [exact Hcur | exact Hnone].
Defined.

(** ** Drawing *)

Section Drawing.
Context `{GeometryEngine}.
Variable typeErrorText : string.

Lemma buildROW_keeps (lineId : nat) (now : string) (w : Widget.t) :
  let w' := buildROW typeErrorText lineId now w in
  State.lines (Widget.state w') = State.lines (Widget.state w)
  /\ State.isDrawing (Widget.state w') = State.isDrawing (Widget.state w)
  /\ State.project (Widget.state w') = State.project (Widget.state w)
  /\ Widget.previewLayer w' = Widget.previewLayer w.
Proof.
  cbv zeta. unfold buildROW.
  destruct (findLine lineId w); [|repeat split].
  destruct (buildRowPolygon _ _ _); repeat split.
Qed.

Lemma addLine_keeps (geometry : Polyline.t) (now nowRow : string) (w : Widget.t) :
  let s := Widget.state w in
  let w' := addLine typeErrorText geometry now nowRow w in
  State.lines (Widget.state w')
  = State.lines s
      ++ [LineRecord.mk (State.nextLineId s) (State.project s) geometry
            (State.leftWidth s) (State.rightWidth s)
            (State.leftWidth s + State.rightWidth s) now]
  /\ State.isDrawing (Widget.state w') = State.isDrawing s
  /\ State.project (Widget.state w') = State.project s
  /\ Widget.previewLayer w' = Widget.previewLayer w.
Proof.
  cbv zeta. unfold addLine. cbv zeta.
  match goal with
  | |- context [buildROW typeErrorText ?i ?n ?v] =>
      destruct (buildROW_keeps i n v) as (-> & -> & -> & ->)
  end.
  repeat split.
Qed.

End Drawing.

(** X23: An event of the real-time drawing with fewer than 2 vertices changes
    nothing, not even when it is the completion of the drawing.  With 2
    vertices or more, an event other than the completion replaces the
    preview by the ROW polygon and the centerline, or by the centerline
    alone when the polygon cannot be built, and touches nothing else and
    alerts nothing; the completion empties the preview, records the line
    drawn, with the widths of the form, and ends the drawing. *)
Theorem realtime_preview_outcome `{GeometryEngine}
    (typeErrorText : string) (vertices : Path) (type : string)
    (viewReference : SpatialReference) (now nowRow : string) (w : Widget.t) :
  let s := Widget.state w in
  let w' :=
    updateRealtimePreview typeErrorText vertices type viewReference now nowRow w in
  let centerline := Polyline.mk [vertices] viewReference in
  let centerlineGraphic := Graphic.mk (OfPolyline centerline) centerlineSymbol None in
  ((List.length vertices <= 1)%nat -> w' = w)
  /\ ((1 < List.length vertices)%nat -> type <> "draw-complete"%string ->
      Widget.state w' = s
      /\ Widget.centerlineLayer w' = Widget.centerlineLayer w
      /\ Widget.rowLayer w' = Widget.rowLayer w
      /\ Widget.alerts w' = Widget.alerts w
      /\ Widget.previewLayer w'
         = match
             buildRowPolygon centerline (State.leftWidth s) (State.rightWidth s)
           with
           | Ok rowPolygon =>
               [Graphic.mk (OfPolygon rowPolygon) previewFillSymbol None;
                centerlineGraphic]
           | Throw _ => [centerlineGraphic]
           end)
  /\ ((1 < List.length vertices)%nat -> type = "draw-complete"%string ->
      Widget.previewLayer w' = []
      /\ State.isDrawing (Widget.state w') = false
      /\ State.lines (Widget.state w')
         = State.lines s
             ++ [LineRecord.mk (State.nextLineId s) (State.project s) centerline
                   (State.leftWidth s) (State.rightWidth s)
                   (State.leftWidth s + State.rightWidth s) now]).
Proof.
  cbv zeta. unfold updateRealtimePreview. split; [|split].
  - intros Hn.
    replace (1 <? List.length vertices)%nat with false
      by (symmetry; apply Nat.ltb_ge; exact Hn).
    reflexivity.
  - intros Hn Htype.
    replace (1 <? List.length vertices)%nat with true
      by (symmetry; apply Nat.ltb_lt; exact Hn).
    cbv zeta.
    replace (String.eqb type "draw-complete") with false
      by (symmetry; apply String.eqb_neq; exact Htype).
    cbn [Widget.state Widget.with_previewLayer].
    destruct (buildRowPolygon _ _ _); repeat split.
  - intros Hn ->.
    replace (1 <? List.length vertices)%nat with true
      by (symmetry; apply Nat.ltb_lt; exact Hn).
    cbv zeta. rewrite String.eqb_refl.
    match goal with
    | |- context [addLine typeErrorText ?g ?n ?m ?v] =>
        destruct (addLine_keeps typeErrorText g n m v) as (Hl & _ & _ & Hp);
        cbv zeta in Hl, Hp
    end.
    cbn [Widget.state Widget.with_state Widget.previewLayer State.isDrawing
      State.set_isDrawing State.lines].
    split; [|split; [reflexivity|]].
    + rewrite Hp. destruct (buildRowPolygon _ _ _); reflexivity.
    + rewrite Hl. destruct (buildRowPolygon _ _ _); reflexivity.
Qed.

(** X24: No handler starts a drawing without a project name: when a step turns
    isDrawing from false to true, the project name is not empty, and the
    step changes neither table. *)
Theorem drawing_starts_only_with_project `{GeometryEngine}
    (typeErrorText : string) (w w' : Widget.t) :
  step typeErrorText w w' ->
  State.isDrawing (Widget.state w) = false ->
  State.isDrawing (Widget.state w') = true ->
  State.project (Widget.state w) <> EmptyString
  /\ State.lines (Widget.state w') = State.lines (Widget.state w)
  /\ State.polygons (Widget.state w') = State.polygons (Widget.state w).
Proof.
  intros Hstep Hoff Hon. destruct Hstep; cbn in Hon; try congruence.
  - revert Hon. unfold handleDrawLine. cbv zeta.
    destruct (String.eqb_spec (State.project (Widget.state w)) EmptyString)
      as [Hp | Hp].
    + cbn. congruence.
    + intros _. split; [exact Hp|].
      destruct (String.eqb _ _); split; reflexivity.
  - revert Hon. unfold onSketchCreate.
    destruct (String.eqb _ _); cbn; congruence.
  - revert Hon. unfold updateRealtimePreview.
    destruct (1 <? List.length vertices)%nat; [|congruence]. cbv zeta.
    destruct (String.eqb _ _); [cbn; congruence|].
    destruct (buildRowPolygon _ _ _); cbn; congruence.
  - revert Hon. unfold showVertices.
    destruct (findLine _ _); [|congruence].
    destruct (computeVertexAnalytics _); cbn; congruence.
Qed.

Lemma drawing_starts_only_with_project_witness :
  let w :=
    Widget.with_state (State.set_project "A1" (Widget.state initialWidget))
      initialWidget in
  State.project (Widget.state w) <> EmptyString
  /\ State.lines (Widget.state (@handleDrawLine w)) = State.lines (Widget.state w)
  /\ State.polygons (Widget.state (@handleDrawLine w))
     = State.polygons (Widget.state w).
Proof.
  cbv zeta.
  apply (@drawing_starts_only_with_project planarEngine "not iterable"
           (Widget.with_state (State.set_project "A1" (Widget.state initialWidget))
              initialWidget)
           (handleDrawLine
              (Widget.with_state (State.set_project "A1" (Widget.state initialWidget))
                 initialWidget)));
    [apply step_handleDrawLine | reflexivity | reflexivity].
Defined.
